(** * Roo-demo: an OpenAI-compatible proxy in front of an upstream completion API

    Shallow embedding of the two entry points [src/index.js] (the hunyuan
    configuration) and [src/venus.js] (the venus configuration), and the
    properties of their request translation and streaming relay.

    Conventions of the embedding.
    - A JavaScript string is a [string]; one character stands for one code
      unit, so [String.length] is [.length], [startsWith] and [substring]
      work unit by unit as they do in the source.
    - A parsed JSON value is a [json]; an object is a finite map from
      property names to values ([gmap string json]), a number is an IEEE
      binary64 [float] as in JavaScript.
    - [req.body] is the object produced by [express.json()] (the empty
      object when the client sent no JSON body).
    - The HTTP client ([axios]) is outside the program: its answer to a
      request is an input of the model, a promise that either resolves to a
      response or rejects with an error.
    - The Express response [res] is an explicit state threaded through the
      handlers. *)

From Stdlib Require Import ZArith Ascii String Floats.PrimFloat.
From stdpp Require Import base option list strings gmap fin_maps.

Local Open Scope Z_scope.

(** ** JavaScript strings *)

Module JsString.

(** [s.startsWith(p)] *)
Fixpoint startsWith (s p : string) {struct p} : bool :=
  match p with
  | EmptyString => true
  | String c p' =>
      match s with
      | EmptyString => false
      | String d s' => Ascii.eqb d c && startsWith s' p'
      end
  end.

(** [s.substring(n)]: the units of [s] from index [n] on, the empty string
    when [n] is past the end. *)
Fixpoint substring (n : nat) (s : string) : string :=
  match n with
  | O => s
  | S n' =>
      match s with
      | EmptyString => EmptyString
      | String _ s' => substring n' s'
      end
  end.

(** The falsy string is the empty one. *)
Definition nonempty (s : string) : bool :=
  match s with
  | EmptyString => false
  | String _ _ => true
  end.

Definition lower_ascii (c : ascii) : ascii :=
  let n := N_of_ascii c in
  if ((65 <=? n) && (n <=? 90))%N then ascii_of_N (n + 32) else c.

(** [s.toLowerCase()] on the ASCII range, which is what header names use. *)
Fixpoint toLowerCase (s : string) : string :=
  match s with
  | EmptyString => EmptyString
  | String c s' => String (lower_ascii c) (toLowerCase s')
  end.

Definition char (c : ascii) : string := String c EmptyString.
Definition dquote : string := char "034".
Definition backslash : string := char "092".
Definition newline : string := char "010".

Definition hex_digit (n : N) : ascii :=
  if (n <? 10)%N then ascii_of_N (48 + n) else ascii_of_N (87 + n).

(** One unit of [JSON.stringify] applied to a string (QuoteJSONString). *)
Definition quote_unit (c : ascii) : string :=
  let n := N_of_ascii c in
  if (n =? 8)%N then backslash +:+ "b"
  else if (n =? 9)%N then backslash +:+ "t"
  else if (n =? 10)%N then backslash +:+ "n"
  else if (n =? 12)%N then backslash +:+ "f"
  else if (n =? 13)%N then backslash +:+ "r"
  else if (n =? 34)%N then backslash +:+ dquote
  else if (n =? 92)%N then backslash +:+ backslash
  else if (n <? 32)%N then
    backslash +:+ "u00" +:+ char (hex_digit (n / 16)) +:+ char (hex_digit (n mod 16))
  else char c.

Fixpoint quote_units (s : string) : string :=
  match s with
  | EmptyString => EmptyString
  | String c s' => quote_unit c +:+ quote_units s'
  end.

(** [JSON.stringify(s)] for a string [s]. *)
Definition stringify (s : string) : string :=
  dquote +:+ quote_units s +:+ dquote.

End JsString.

(** ** JSON values and JavaScript truthiness *)

#[warnings="-register-all"]
Inductive json : Type :=
| JNull
| JBool (b : bool)
| JNum (x : float)
| JStr (s : string)
| JArr (items : list json)
| JObj (props : gmap string json).

(** A request body: the properties of the parsed JSON object. *)
Abbreviation jobject := (gmap string json).

(** ToBoolean on a JSON value. *)
Definition truthy (v : json) : bool :=
  match v with
  | JNull => false
  | JBool b => b
  | JNum x => negb (PrimFloat.eqb x 0%float || negb (PrimFloat.eqb x x))
  | JStr s => JsString.nonempty s
  | JArr _ => true
  | JObj _ => true
  end.

(** ToBoolean on the result of a property read; a missing property reads as
    [undefined], which is falsy. *)
Definition truthy_prop (p : option json) : bool :=
  match p with
  | None => false
  | Some v => truthy v
  end.

(** ** Errors and completions *)

(** A thrown [Error]; [err_status] is the upstream status an axios error
    carries in [error.response.status], when it has one. *)
Record js_error : Type := mkError {
  err_name : string;
  err_message : string;
  err_status : option Z
}.

(** [Error.prototype.toString], as used by a template literal. *)
Definition error_toString (e : js_error) : string :=
  if negb (JsString.nonempty (err_name e)) then err_message e
  else if negb (JsString.nonempty (err_message e)) then err_name e
  else err_name e +:+ ": " +:+ err_message e.

(** [new Error(msg)] *)
Definition new_Error (msg : string) : js_error :=
  {| err_name := "Error"; err_message := msg; err_status := None |}.

(** What an awaited computation gives: a value, or a thrown error. *)
Inductive completion (A : Type) : Type :=
| Return (a : A)
| Throw (e : js_error).
Arguments Return {A} a.
Arguments Throw {A} e.

(** ** The Express response object *)

Record response : Type := mkResponse {
  statusCode : Z;
  resHeaders : gmap string string;
  headersSent : bool;
  written : list string;        (* the chunks passed to [res.write], in order *)
  sentBody : option json;       (* the value passed to [res.json] or [res.send] *)
  ended : bool
}.

Module Res.

(** A response nothing has been written to; Express starts at status 200. *)
Definition fresh : response :=
  {| statusCode := 200; resHeaders := ∅; headersSent := false;
     written := []; sentBody := None; ended := false |}.

Definition status (code : Z) (r : response) : response :=
  {| statusCode := code; resHeaders := resHeaders r;
     headersSent := headersSent r; written := written r;
     sentBody := sentBody r; ended := ended r |}.

(** [res.set(fields)]: the given fields replace those of the same name. *)
Definition set (fields : gmap string string) (r : response) : response :=
  {| statusCode := statusCode r; resHeaders := fields ∪ resHeaders r;
     headersSent := headersSent r; written := written r;
     sentBody := sentBody r; ended := ended r |}.

Definition writeHead (code : Z) (fields : gmap string string)
    (r : response) : response :=
  {| statusCode := code; resHeaders := fields ∪ resHeaders r;
     headersSent := true; written := written r;
     sentBody := sentBody r; ended := ended r |}.

(** [res.write(chunk)]: appends the chunk; a write after [end] is dropped. *)
Definition write (chunk : string) (r : response) : response :=
  if ended r then r
  else {| statusCode := statusCode r; resHeaders := resHeaders r;
          headersSent := true; written := written r ++ [chunk];
          sentBody := sentBody r; ended := false |}.

(** [res.end()] *)
Definition end_ (r : response) : response :=
  {| statusCode := statusCode r; resHeaders := resHeaders r;
     headersSent := true; written := written r;
     sentBody := sentBody r; ended := true |}.

(** [res.send(v)]: sends [v] as the whole body and ends the response. *)
Definition send (v : json) (r : response) : response :=
  if ended r then r
  else {| statusCode := statusCode r; resHeaders := resHeaders r;
          headersSent := true; written := written r;
          sentBody := Some v; ended := true |}.

(** [res.json(v)]: as [send], with a JSON content type unless one is set. *)
Definition json (v : json) (r : response) : response :=
  if ended r then r
  else send v
    {| statusCode := statusCode r;
       resHeaders := resHeaders r ∪ {[ "Content-Type" := "application/json" ]};
       headersSent := headersSent r; written := written r;
       sentBody := sentBody r; ended := ended r |}.

End Res.

(** ** The HTTP client *)

(** What is handed to [httpClient.post], [.get] or [.request]. *)
Record outbound : Type := mkOutbound {
  o_method : string;
  o_url : string;
  o_headers : gmap string string;
  o_data : option jobject;           (* [None] is a request without a body *)
  o_params : gmap string string;
  o_stream : bool;                   (* [responseType: 'stream'] *)
  o_timeout : Z                      (* milliseconds, 0 for none *)
}.

(** The events of a readable stream, as delivered to the listeners. *)
Inductive stream_event : Type :=
| EvData (chunk : string)
| EvEnd
| EvError (e : js_error).

Module Axios.

(** The response object axios resolves to. *)
Record response (D : Type) : Type := mkResponse {
  status : Z;
  statusText : string;
  headers : gmap string string;
  data : D
}.
Arguments mkResponse {D} _ _ _ _.
Arguments status {D} _.
Arguments statusText {D} _.
Arguments headers {D} _.
Arguments data {D} _.

End Axios.

(** The upstream service seen through axios: the completion of each request,
    with a parsed body, or with a stream of events when the request asked
    for [responseType: 'stream']. *)
Record upstream : Type := mkUpstream {
  respond : outbound -> completion (Axios.response json);
  respond_stream : outbound -> completion (Axios.response (list stream_event))
}.

(** What a route did: the requests it issued to the upstream, in order, and
    the response the client ends up with. *)
Record effects : Type := mkEffects {
  sent : list outbound;
  reply : response
}.

(** The inbound request as Express presents it. Node lower-cases the names
    in [req.headers]. *)
Record request : Type := mkRequest {
  method : string;
  path : string;
  req_headers : gmap string string;
  query : gmap string string;
  body : jobject
}.

(** [x || ''] for a header or argument that may be missing. *)
Definition or_empty (x : option string) : string :=
  match x with
  | Some s => if JsString.nonempty s then s else ""
  | None => ""
  end.

(** ** Frames and error bodies *)

(** [`data: ${JSON.stringify({ error: { message } })}\n\n`] *)
Definition error_frame (message : string) : string :=
  "data: " +:+
  ("{" +:+ JsString.dquote +:+ "error" +:+ JsString.dquote +:+ ":" +:+
   "{" +:+ JsString.dquote +:+ "message" +:+ JsString.dquote +:+ ":" +:+
   JsString.stringify message +:+ "}}") +:+
  JsString.newline +:+ JsString.newline.

(** ['data: [DONE]\n\n'] *)
Definition done_frame : string :=
  "data: [DONE]" +:+ JsString.newline +:+ JsString.newline.

(** [{ error: { message, type: 'server_error' } }] *)
Definition server_error (message : string) : json :=
  JObj {[ "error" :=
          JObj {[ "message" := JStr message; "type" := JStr "server_error" ]} ]}.

(** ** The forwarding helpers, the same in both entry points *)

Record forwarded : Type := mkForwarded {
  fw_data : json;
  fw_status : Z;
  fw_headers : gmap string string
}.

(** The call [httpClient.post(targetUrl, body, { headers, timeout: 60000 })]. *)
Definition post_request (targetUrl : string) (headers : gmap string string)
    (body : jobject) : outbound :=
  {| o_method := "POST"; o_url := targetUrl; o_headers := headers;
     o_data := Some body; o_params := ∅; o_stream := false;
     o_timeout := 60000 |}.

(** The call [httpClient.post(targetUrl, body,
    { headers, responseType: 'stream', timeout: 0 })]. *)
Definition post_stream_request (targetUrl : string)
    (headers : gmap string string) (body : jobject) : outbound :=
  {| o_method := "POST"; o_url := targetUrl; o_headers := headers;
     o_data := Some body; o_params := ∅; o_stream := true;
     o_timeout := 0 |}.

(** [handleNonStreaming(targetUrl, headers, body)]: the request issued and
    what the call completes with. *)
Definition handleNonStreaming (up : upstream) (targetUrl : string)
    (headers : gmap string string) (body : jobject)
    : outbound * completion forwarded :=
  let request := post_request targetUrl headers body in
  match respond up request with
  | Return response =>
      (request,
       Return {| fw_data := Axios.data response;
                 fw_status := Axios.status response;
                 fw_headers := {[ "Content-Type" := "application/json" ]} |})
  | Throw error =>
      (request,
       Throw (new_Error ("Error forwarding request: " +:+ error_toString error)))
  end.

(** The three listeners [handleStreaming] registers on [response.data]. *)
Definition on_event (ev : stream_event) (res : response) : response :=
  match ev with
  | EvData chunk => Res.write chunk res
  | EvEnd => Res.end_ res
  | EvError error =>
      Res.end_
        (Res.write done_frame
           (Res.write (error_frame ("Streaming error: " +:+ err_message error))
              res))
  end.

(** The response after the stream has delivered its events in order. *)
Fixpoint relay (events : list stream_event) (res : response) : response :=
  match events with
  | [] => res
  | ev :: events' => relay events' (on_event ev res)
  end.

Definition sse_headers : gmap string string :=
  {[ "Content-Type" := "text/event-stream";
     "Cache-Control" := "no-cache";
     "Connection" := "keep-alive" ]}.

(** [handleStreaming(targetUrl, headers, body, res)]: the request issued and
    the response once the upstream stream is over. The function never
    throws: its whole body is inside [try]. *)
Definition handleStreaming (up : upstream) (targetUrl : string)
    (headers : gmap string string) (body : jobject) (res : response)
    : outbound * response :=
  let body := <[ "stream" := JBool true ]> body in
  let request := post_stream_request targetUrl headers body in
  match respond_stream up request with
  | Return response =>
      if negb (Axios.status response =? 200) then
        (request,
         Res.end_
           (Res.write
              (error_frame ("Error from target API: " +:+ Axios.statusText response))
              (Res.status (Axios.status response) res)))
      else
        (request, relay (Axios.data response) (Res.writeHead 200 sse_headers res))
  | Throw error =>
      (request,
       Res.end_
         (Res.write done_frame
            (Res.write (error_frame ("Streaming error: " +:+ err_message error))
               (Res.status 500 res))))
  end.

(** ** The message rule of the chat route *)

(** [v.length === 1] *)
Definition length_is_one (v : json) : bool :=
  match v with
  | JArr items => Nat.eqb (length items) 1
  | JStr s => Nat.eqb (String.length s) 1
  | JObj props =>
      match props !! "length" with
      | Some (JNum x) => PrimFloat.eqb x 1%float
      | _ => false
      end
  | _ => false
  end.

Definition not_iterable : js_error :=
  {| err_name := "TypeError";
     err_message := "body.messages is not iterable";
     err_status := None |}.

(** [...v] inside an array literal: the elements of an array, the units of a
    string; anything else is not iterable. *)
Definition spread (v : json) : completion (list json) :=
  match v with
  | JArr items => Return items
  | JStr s => Return ((λ c, JStr (JsString.char c)) <$> list_ascii_of_string s)
  | _ => Throw not_iterable
  end.

Definition system_message : json :=
  JObj {[ "content" := JStr ""; "role" := JStr "system" ]}.

(** [if (body.messages && body.messages.length === 1)
       body.messages = [{ content: '', role: 'system' }, ...body.messages]] *)
Definition prepend_system (body : jobject) : completion jobject :=
  match body !! "messages" with
  | Some messages =>
      if truthy messages && length_is_one messages then
        match spread messages with
        | Return items =>
            Return (<[ "messages" := JArr (system_message :: items) ]> body)
        | Throw error => Throw error
        end
      else Return body
  | None => Return body
  end.

(** The routes registered on the Express application, in order. *)
Inductive endpoint : Type :=
| ChatCompletions      (* POST /v1/chat/completions *)
| Completions          (* POST /v1/completions *)
| Models               (* GET /v1/models *)
| CatchAll.            (* ALL * *)

(** ** The entry point [src/index.js] *)

Module Index.

(** The values read from [config-hunyuan.js]. *)
Record config : Type := mkConfig {
  TARGET_API_BASE_URL : string;
  WORKSPACE_ID : string;
  API_KEY_PREFIX : string;
  TARGET_API_KEY_PREFIX : string;
  modelName : string;
  enableStream : bool
}.

Section Routes.

Variable cfg : config.

(** [processAuthHeader(authHeader)] *)
Definition processAuthHeader (authHeader : option string) : string :=
  let apiKey := or_empty authHeader in
  let apiKey :=
    if JsString.startsWith apiKey (API_KEY_PREFIX cfg)
    then JsString.substring (String.length (API_KEY_PREFIX cfg)) apiKey
    else apiKey in
  TARGET_API_KEY_PREFIX cfg +:+ apiKey.

(** [buildHeaders(authHeader, contentType = 'application/json')] *)
Definition buildHeaders (authHeader : option string)
    (contentType : string) : gmap string string :=
  {[ "Authorization" := processAuthHeader authHeader;
     "Wsid" := WORKSPACE_ID cfg;
     "Content-Type" := contentType ]}.

(** [res.status(500).json({ error: { message, type: 'server_error' } })] *)
Definition fail (message : string) (res : response) : response :=
  Res.json (server_error message) (Res.status 500 res).

(** The body rules at the head of the chat route (query id, messages,
    model, stream), in the order of the source; [uuid] is what
    [uuidv4()] returns for this request. *)
Definition normalize (uuid : string) (body : jobject)
    : completion jobject :=
  let body :=
    if negb (truthy_prop (body !! "query_id"))
    then <[ "query_id" := JStr ("query_" +:+ uuid) ]> body
    else body in
  match prepend_system body with
  | Throw error => Throw error
  | Return body =>
      let body :=
        if negb (truthy_prop (body !! "model"))
        then <[ "model" := JStr (modelName cfg) ]> body
        else body in
      let body :=
        if negb (truthy_prop (body !! "stream"))
        then <[ "stream" := JBool (enableStream cfg) ]> body
        else body in
      Return body
  end.

(** [app.post('/v1/chat/completions', ...)] *)
Definition chat_completions (up : upstream) (uuid : string)
    (req : request) (res : response) : effects :=
  match normalize uuid (body req) with
  | Throw error => {| sent := []; reply := fail (err_message error) res |}
  | Return body =>
      let authHeader := or_empty (req_headers req !! "authorization") in
      let headers := buildHeaders (Some authHeader) "application/json" in
      let stream := body !! "stream" in
      let targetUrl := TARGET_API_BASE_URL cfg +:+ "/chat/completions" in
      if truthy_prop stream then
        let '(request, res) := handleStreaming up targetUrl headers body res in
        {| sent := [request]; reply := res |}
      else
        match handleNonStreaming up targetUrl headers body with
        | (request, Return result) =>
            {| sent := [request];
               reply := Res.json (fw_data result)
                          (Res.set (fw_headers result)
                             (Res.status (fw_status result) res)) |}
        | (request, Throw error) =>
            {| sent := [request]; reply := fail (err_message error) res |}
        end
  end.

(** [app.post('/v1/completions', ...)] *)
Definition completions (up : upstream) (req : request) (res : response)
    : effects :=
  let body := body req in
  let authHeader := or_empty (req_headers req !! "authorization") in
  let headers := buildHeaders (Some authHeader) "application/json" in
  let stream := truthy_prop (body !! "stream") in
  let targetUrl := TARGET_API_BASE_URL cfg +:+ "/v1/completions" in
  if stream then
    let '(request, res) := handleStreaming up targetUrl headers body res in
    {| sent := [request]; reply := res |}
  else
    match handleNonStreaming up targetUrl headers body with
    | (request, Return result) =>
        {| sent := [request];
           reply := Res.json (fw_data result)
                      (Res.set (fw_headers result)
                         (Res.status (fw_status result) res)) |}
    | (request, Throw error) =>
        {| sent := [request]; reply := fail (err_message error) res |}
    end.

(** [app.get('/v1/models', ...)] *)
Definition models (up : upstream) (req : request) (res : response)
    : effects :=
  let authHeader := or_empty (req_headers req !! "authorization") in
  let headers := buildHeaders (Some authHeader) "application/json" in
  let headers := delete "Content-Type" headers in
  let targetUrl := TARGET_API_BASE_URL cfg +:+ "/v1/models" in
  let request :=
    {| o_method := "GET"; o_url := targetUrl; o_headers := headers;
       o_data := None; o_params := ∅; o_stream := false;
       o_timeout := 60000 |} in
  match respond up request with
  | Return response =>
      {| sent := [request];
         reply := Res.json (Axios.data response)
                    (Res.set {[ "Content-Type" := "application/json" ]}
                       (Res.status (Axios.status response) res)) |}
  | Throw error =>
      {| sent := [request];
         reply := fail ("Error forwarding request: " +:+ err_message error)
                    res |}
  end.

(** [app.all('*', ...)] *)
Definition catch_all (up : upstream) (req : request) (res : response)
    : effects :=
  let path :=
    if JsString.startsWith (path req) "/"
    then JsString.substring 1 (path req)
    else path req in
  let authHeader := or_empty (req_headers req !! "authorization") in
  let headers := req_headers req in
  let headers := <[ "authorization" := processAuthHeader (Some authHeader) ]> headers in
  let headers := <[ "wsid" := WORKSPACE_ID cfg ]> headers in
  let headers := delete "host" headers in
  let targetUrl := TARGET_API_BASE_URL cfg +:+ "/" +:+ path in
  let data :=
    if negb (String.eqb (method req) "GET")
       && negb (String.eqb (method req) "HEAD")
    then Some (body req)
    else None in
  let request :=
    {| o_method := method req; o_url := targetUrl; o_headers := headers;
       o_data := data; o_params := query req; o_stream := false;
       o_timeout := 60000 |} in
  match respond up request with
  | Return response =>
      {| sent := [request];
         reply := Res.send (Axios.data response)
                    (Res.set (Axios.headers response)
                       (Res.status (Axios.status response) res)) |}
  | Throw error =>
      {| sent := [request];
         reply := fail ("Error forwarding request: " +:+ err_message error)
                    res |}
  end.

(** The application: the handler of the route Express selected. *)
Definition app (ep : endpoint) (up : upstream) (uuid : string)
    (req : request) : effects :=
  match ep with
  | ChatCompletions => chat_completions up uuid req Res.fresh
  | Completions => completions up req Res.fresh
  | Models => models up req Res.fresh
  | CatchAll => catch_all up req Res.fresh
  end.

End Routes.

End Index.

(** ** The entry point [src/venus.js] *)

Module Venus.

(** The values read from [config-venus.js]; the workspace id is optional. *)
Record config : Type := mkConfig {
  targetApiBaseUrl : string;
  targetApiKeyPrefix : string;
  apiKeyPrefix : string;
  token : string;
  enableStream : bool;
  chatCompletionsPath : string;
  modelsPath : string;
  workspaceId : option string;
  modelName : string
}.

Section Helpers.

Variable cfg : config.

(** [processAuthHeader(authHeader)]: the stripped key is computed and
    then not used. *)
Definition processAuthHeader (authHeader : option string) : string :=
  let apiKey := or_empty authHeader in
  let apiKey :=
    if JsString.startsWith apiKey (apiKeyPrefix cfg)
    then JsString.substring (String.length (apiKeyPrefix cfg)) apiKey
    else apiKey in
  targetApiKeyPrefix cfg +:+ token cfg.

(** [buildHeaders(authHeader, contentType = 'application/json')] *)
Definition buildHeaders (authHeader : option string)
    (contentType : string) : gmap string string :=
  let headers : gmap string string :=
    {[ "Authorization" := processAuthHeader authHeader;
       "Content-Type" := contentType ]} in
  match workspaceId cfg with
  | Some id =>
      if JsString.nonempty id then <[ "Wsid" := id ]> headers else headers
  | None => headers
  end.

(** [res.status(500).json({ error: { message, type: 'server_error' } })] *)
Definition fail (message : string) (res : response) : response :=
  Res.json (server_error message) (Res.status 500 res).

(** The body rules at the head of the chat route, as in [index.js]. *)
Definition normalize (uuid : string) (body : jobject) : completion jobject :=
  let body :=
    if negb (truthy_prop (body !! "query_id"))
    then <[ "query_id" := JStr ("query_" +:+ uuid) ]> body
    else body in
  match prepend_system body with
  | Throw error => Throw error
  | Return body =>
      let body :=
        if negb (truthy_prop (body !! "model"))
        then <[ "model" := JStr (modelName cfg) ]> body
        else body in
      let body :=
        if negb (truthy_prop (body !! "stream"))
        then <[ "stream" := JBool (enableStream cfg) ]> body
        else body in
      Return body
  end.

(** [app.post(`/v1/${chatCompletionsPath}`, ...)] *)
Definition chat_completions (up : upstream) (uuid : string)
    (req : request) (res : response) : effects :=
  match normalize uuid (body req) with
  | Throw error => {| sent := []; reply := fail (err_message error) res |}
  | Return body =>
      let authHeader := or_empty (req_headers req !! "authorization") in
      let headers := buildHeaders (Some authHeader) "application/json" in
      let stream := body !! "stream" in
      let targetUrl :=
        targetApiBaseUrl cfg +:+ "/" +:+ chatCompletionsPath cfg in
      if truthy_prop stream then
        let '(request, res) := handleStreaming up targetUrl headers body res in
        {| sent := [request]; reply := res |}
      else
        match handleNonStreaming up targetUrl headers body with
        | (request, Return result) =>
            {| sent := [request];
               reply := Res.json (fw_data result)
                          (Res.set (fw_headers result)
                             (Res.status (fw_status result) res)) |}
        | (request, Throw error) =>
            {| sent := [request]; reply := fail (err_message error) res |}
        end
  end.

(** [app.post('/v1/completions', ...)] *)
Definition completions (up : upstream) (req : request) (res : response)
    : effects :=
  let body := body req in
  let authHeader := or_empty (req_headers req !! "authorization") in
  let headers := buildHeaders (Some authHeader) "application/json" in
  let stream := truthy_prop (body !! "stream") in
  let targetUrl := targetApiBaseUrl cfg +:+ "/v1/completions" in
  if stream then
    let '(request, res) := handleStreaming up targetUrl headers body res in
    {| sent := [request]; reply := res |}
  else
    match handleNonStreaming up targetUrl headers body with
    | (request, Return result) =>
        {| sent := [request];
           reply := Res.json (fw_data result)
                      (Res.set (fw_headers result)
                         (Res.status (fw_status result) res)) |}
    | (request, Throw error) =>
        {| sent := [request]; reply := fail (err_message error) res |}
    end.

(** [app.get(`/v1/${modelsPath}`, ...)]; the target is [/v1/models]
    whatever the configured path. *)
Definition models (up : upstream) (req : request) (res : response)
    : effects :=
  let authHeader := or_empty (req_headers req !! "authorization") in
  let headers := buildHeaders (Some authHeader) "application/json" in
  let headers := delete "Content-Type" headers in
  let targetUrl := targetApiBaseUrl cfg +:+ "/v1/models" in
  let request :=
    {| o_method := "GET"; o_url := targetUrl; o_headers := headers;
       o_data := None; o_params := ∅; o_stream := false;
       o_timeout := 60000 |} in
  match respond up request with
  | Return response =>
      {| sent := [request];
         reply := Res.json (Axios.data response)
                    (Res.set {[ "Content-Type" := "application/json" ]}
                       (Res.status (Axios.status response) res)) |}
  | Throw error =>
      {| sent := [request];
         reply := fail ("Error forwarding request: " +:+ err_message error)
                    res |}
  end.

(** [app.all('*', ...)]; the workspace header is set only when a workspace
    id is configured. *)
Definition catch_all (up : upstream) (req : request) (res : response)
    : effects :=
  let path :=
    if JsString.startsWith (path req) "/"
    then JsString.substring 1 (path req)
    else path req in
  let authHeader := or_empty (req_headers req !! "authorization") in
  let headers := req_headers req in
  let headers := <[ "authorization" := processAuthHeader (Some authHeader) ]> headers in
  let headers :=
    match workspaceId cfg with
    | Some id =>
        if JsString.nonempty id then <[ "wsid" := id ]> headers else headers
    | None => headers
    end in
  let headers := delete "host" headers in
  let targetUrl := targetApiBaseUrl cfg +:+ "/" +:+ path in
  let data :=
    if negb (String.eqb (method req) "GET")
       && negb (String.eqb (method req) "HEAD")
    then Some (body req)
    else None in
  let request :=
    {| o_method := method req; o_url := targetUrl; o_headers := headers;
       o_data := data; o_params := query req; o_stream := false;
       o_timeout := 60000 |} in
  match respond up request with
  | Return response =>
      {| sent := [request];
         reply := Res.send (Axios.data response)
                    (Res.set (Axios.headers response)
                       (Res.status (Axios.status response) res)) |}
  | Throw error =>
      {| sent := [request];
         reply := fail ("Error forwarding request: " +:+ err_message error)
                    res |}
  end.

(** The application: the handler of the route Express selected. *)
Definition app (ep : endpoint) (up : upstream) (uuid : string)
    (req : request) : effects :=
  match ep with
  | ChatCompletions => chat_completions up uuid req Res.fresh
  | Completions => completions up req Res.fresh
  | Models => models up req Res.fresh
  | CatchAll => catch_all up req Res.fresh
  end.

End Helpers.

End Venus.

(** ** Concrete inputs used by the examples below *)

Module Sample.

Definition hunyuan (stream_default : bool) : Index.config :=
  {| Index.TARGET_API_BASE_URL := "https://upstream.example";
     Index.WORKSPACE_ID := "ws-1";
     Index.API_KEY_PREFIX := "Bearer sk-";
     Index.TARGET_API_KEY_PREFIX := "Bearer up-";
     Index.modelName := "hunyuan-default";
     Index.enableStream := stream_default |}.

Definition venus : Venus.config :=
  {| Venus.targetApiBaseUrl := "https://upstream.example";
     Venus.targetApiKeyPrefix := "Bearer up-";
     Venus.apiKeyPrefix := "Bearer sk-";
     Venus.token := "static-token";
     Venus.enableStream := false;
     Venus.chatCompletionsPath := "chat/completions";
     Venus.modelsPath := "models";
     Venus.workspaceId := None;
     Venus.modelName := "venus-default" |}.

Definition reset : js_error :=
  {| err_name := "Error"; err_message := "read ECONNRESET";
     err_status := None |}.

Definition bad_gateway : js_error :=
  {| err_name := "AxiosError";
     err_message := "Request failed with status code 502";
     err_status := Some 502 |}.

(** An upstream that answers every request the same way. *)
Definition always (r : completion (Axios.response json))
    (rs : completion (Axios.response (list stream_event))) : upstream :=
  {| respond := λ _, r; respond_stream := λ _, rs |}.

Definition ok_json : Axios.response json :=
  Axios.mkResponse 200 "OK" ∅ (JObj ∅).

Definition streaming (code : Z) (text : string)
    (events : list stream_event) : upstream :=
  always (Return ok_json) (Return (Axios.mkResponse code text ∅ events)).

Definition failing (e : js_error) : upstream :=
  always (Throw e) (Throw e).

Definition chunk1 : string :=
  "data: {" +:+ JsString.dquote +:+ "choice" +:+ JsString.dquote +:+ ":1}"
  +:+ JsString.newline +:+ JsString.newline.

Definition user_message : json :=
  JObj {[ "role" := JStr "user"; "content" := JStr "hi" ]}.

Definition client_headers : gmap string string :=
  {[ "host" := "proxy.example"; "authorization" := "Bearer sk-ABC";
     "accept" := "*/*" ]}.

Definition post (target : string) (headers : gmap string string)
    (b : jobject) : request :=
  {| method := "POST"; path := target;
     req_headers := headers; query := ∅; body := b |}.

Definition chat (b : jobject) : request :=
  post "/v1/chat/completions" client_headers b.

Definition completion_request (b : jobject) : request :=
  post "/v1/completions" client_headers b.

Definition get_files : request :=
  {| method := "GET"; path := "/v1/files"; req_headers := client_headers;
     query := ∅; body := ∅ |}.

(** What the catch-all route sends for [get_files]. *)
Definition forwarded_get_files : outbound :=
  {| o_method := "GET"; o_url := "https://upstream.example/v1/files";
     o_headers := {[ "authorization" := "Bearer up-ABC"; "wsid" := "ws-1";
                     "accept" := "*/*" ]};
     o_data := None; o_params := ∅; o_stream := false;
     o_timeout := 60000 |}.

(** The headers of [client_headers] with another client token. *)
Definition other_client_headers : gmap string string :=
  {[ "host" := "proxy.example"; "authorization" := "Bearer sk-OTHER";
     "accept" := "*/*" ]}.

(** A venus configuration with a workspace id. *)
Definition venus_workspace : Venus.config :=
  {| Venus.targetApiBaseUrl := "https://upstream.example";
     Venus.targetApiKeyPrefix := "Bearer up-";
     Venus.apiKeyPrefix := "Bearer sk-";
     Venus.token := "static-token";
     Venus.enableStream := false;
     Venus.chatCompletionsPath := "chat/completions";
     Venus.modelsPath := "models";
     Venus.workspaceId := Some "ws-9";
     Venus.modelName := "venus-default" |}.

(** What the venus catch-all route sends for [get_files]. *)
Definition venus_forwarded_get_files : outbound :=
  {| o_method := "GET"; o_url := "https://upstream.example/v1/files";
     o_headers := {[ "authorization" := "Bearer up-static-token";
                     "wsid" := "ws-9"; "accept" := "*/*" ]};
     o_data := None; o_params := ∅; o_stream := false;
     o_timeout := 60000 |}.

Definition created : Axios.response json :=
  Axios.mkResponse 201 "Created" {[ "x-request-id" := "r-7" ]}
    (JObj {[ "id" := JStr "cmpl-1" ]}).

(** An upstream that answers every plain request with [created]. *)
Definition creating : upstream :=
  always (Return created) (Throw reset).

(** What the chat route sends for an empty body when streaming is not the
    default. *)
Definition forwarded_chat : outbound :=
  post_request "https://upstream.example/chat/completions"
    {[ "Authorization" := "Bearer up-ABC"; "Wsid" := "ws-1";
       "Content-Type" := "application/json" ]}
    {[ "query_id" := JStr "query_u1"; "model" := JStr "hunyuan-default";
       "stream" := JBool false ]}.

(** What the chat route sends for an empty body when streaming is the
    default. *)
Definition forwarded_chat_stream : outbound :=
  post_stream_request "https://upstream.example/chat/completions"
    {[ "Authorization" := "Bearer up-ABC"; "Wsid" := "ws-1";
       "Content-Type" := "application/json" ]}
    {[ "query_id" := JStr "query_u1"; "model" := JStr "hunyuan-default";
       "stream" := JBool true ]}.

End Sample.

(** The bytes the client receives from a sequence of writes. *)
Definition wire (chunks : list string) : string :=
  foldr String.append "" chunks.

(** Node delivers [req.headers] with lower-case names. *)
Definition lowercase_names (h : gmap string string) : bool :=
  bool_decide (map_Forall (λ k _, JsString.toLowerCase k = k) h).

(** A route applies the body rules when, for every request whose body the
    rules accept, the body it forwards is the normalized one (with [stream]
    forced to [true] on the streaming path). *)
Definition applies_normalizer (cfg : Index.config) (ep : endpoint) : Prop :=
  ∀ (up : upstream) (uuid : string) (req : request) (n : jobject),
    Index.normalize cfg uuid (body req) = Return n →
    ∃ o, sent (Index.app cfg ep up uuid req) = [o]
         ∧ o_data o = Some (if truthy_prop (n !! "stream")
                            then <[ "stream" := JBool true ]> n else n).

(** The events that end a stream. *)
Definition terminal (ev : stream_event) : bool :=
  match ev with
  | EvData _ => false
  | EvEnd => true
  | EvError _ => true
  end.

(** A stream that delivers [end] or [error] at some point. *)
Definition terminates (events : list stream_event) : bool :=
  existsb terminal events.

(** The number of line feeds in a string. *)
Fixpoint line_feeds (s : string) : nat :=
  match s with
  | EmptyString => 0
  | String c s' =>
      (if Ascii.eqb c "010" then 1 else 0) + line_feeds s'
  end.

(** * Properties *)

(** ** Strings *)

Lemma startsWith_app (p r : string) : JsString.startsWith (p +:+ r) p = true.
Proof.
  induction p as [|c p IH]; simpl; [done|].
  by rewrite Ascii.eqb_refl, IH.
Qed.

Lemma substring_app (p r : string) :
  JsString.substring (String.length p) (p +:+ r) = r.
Proof. induction p as [|c p IH]; simpl; done. Qed.

Lemma or_empty_Some (s : string) : or_empty (Some s) = s.
Proof. by destruct s. Qed.

Lemma or_empty_idem (x : option string) :
  or_empty (Some (or_empty x)) = or_empty x.
Proof. apply or_empty_Some. Qed.

(** ** The auth translator *)

(** C2. In [index.js] (the token-passthrough policy) an inbound header made
    of the client prefix followed by any rest is translated to the upstream
    prefix followed by the same rest; with client prefix [Bearer sk-] and
    upstream prefix [Bearer up-], the header [Bearer sk-ABC] becomes
    [Bearer up-ABC]. *)
Theorem processAuthHeader_passthrough :
  (∀ (cfg : Index.config) (rest : string),
      Index.processAuthHeader cfg (Some (Index.API_KEY_PREFIX cfg +:+ rest))
      = Index.TARGET_API_KEY_PREFIX cfg +:+ rest)
  ∧ (∀ (base ws model : string) (dflt : bool),
      Index.processAuthHeader
        {| Index.TARGET_API_BASE_URL := base; Index.WORKSPACE_ID := ws;
           Index.API_KEY_PREFIX := "Bearer sk-";
           Index.TARGET_API_KEY_PREFIX := "Bearer up-";
           Index.modelName := model; Index.enableStream := dflt |}
        (Some "Bearer sk-ABC")
      = "Bearer up-ABC").
Proof.
  split.
  - intros cfg rest. unfold Index.processAuthHeader.
    rewrite or_empty_Some, startsWith_app, substring_app. done.
  - done.
Qed.

(** The same header under [venus.js]: the client's token does not reach the
    upstream. *)
Example venus_replaces_token :
  Venus.processAuthHeader Sample.venus (Some "Bearer sk-ABC")
  = "Bearer up-static-token".
Proof. reflexivity. Qed.

(** A header without the client prefix is passed on whole behind the
    upstream prefix, and a missing header leaves the prefix alone. *)
Example processAuthHeader_unprefixed :
  Index.processAuthHeader (Sample.hunyuan false) (Some "Basic xyz")
  = "Bearer up-Basic xyz".
Proof. reflexivity. Qed.

Example processAuthHeader_absent :
  Index.processAuthHeader (Sample.hunyuan false) None = "Bearer up-".
Proof. reflexivity. Qed.

(** C10. In [venus.js] the translated value does not depend on the inbound
    header: for any two inbound values, absent ones included, the result is
    the same, the upstream prefix followed by the configured token. *)
Theorem venus_processAuthHeader_constant :
  ∀ (cfg : Venus.config) (h1 h2 : option string),
    Venus.processAuthHeader cfg h1 = Venus.processAuthHeader cfg h2
    ∧ Venus.processAuthHeader cfg h1
      = Venus.targetApiKeyPrefix cfg +:+ Venus.token cfg.
Proof. intros cfg h1 h2. split; reflexivity. Qed.

(** ** The streaming relay *)

Lemma append_assoc (a b c : string) : (a +:+ b) +:+ c = a +:+ (b +:+ c).
Proof.
  induction a as [|x a IH]; [done|].
  change (String x ((a +:+ b) +:+ c) = String x (a +:+ (b +:+ c))).
  by rewrite IH.
Qed.

Lemma wire_app (a b : list string) : wire (a ++ b) = wire a +:+ wire b.
Proof.
  induction a as [|x a IH]; [done|].
  change (x +:+ wire (a ++ b) = (x +:+ wire a) +:+ wire b).
  by rewrite IH, append_assoc.
Qed.

Lemma relay_app (a b : list stream_event) (res : response) :
  relay (a ++ b) res = relay b (relay a res).
Proof. revert res. induction a as [|ev a IH]; intros res; simpl; [done|]. apply IH. Qed.

(** Data events on an open response append their chunks and touch nothing
    else the client can see. *)
Lemma relay_data (chunks : list string) (res : response) :
  ended res = false →
  let r := relay (EvData <$> chunks) res in
  written r = written res ++ chunks ∧ ended r = false
  ∧ statusCode r = statusCode res ∧ resHeaders r = resHeaders res
  ∧ sentBody r = sentBody res.
Proof.
  revert res. induction chunks as [|c chunks IH]; intros res Hopen.
  - cbn. by rewrite app_nil_r.
  - assert (Hw : ended (Res.write c res) = false)
      by (unfold Res.write; rewrite Hopen; done).
    destruct (IH _ Hw) as (H1 & H2 & H3 & H4 & H5).
    change (relay (EvData <$> c :: chunks) res)
      with (relay (EvData <$> chunks) (Res.write c res)).
    cbv zeta. rewrite H1, H2, H3, H4, H5. unfold Res.write. rewrite Hopen. simpl.
    by rewrite <- app_assoc.
Qed.

(** Once the response is ended no event changes what the client got. *)
Lemma relay_ended (events : list stream_event) (res : response) :
  ended res = true →
  let r := relay events res in
  written r = written res ∧ ended r = true
  ∧ statusCode r = statusCode res ∧ resHeaders r = resHeaders res
  ∧ sentBody r = sentBody res.
Proof.
  revert res. induction events as [|ev events IH]; intros res Hend; simpl; [done|].
  assert (Hev : written (on_event ev res) = written res
                ∧ ended (on_event ev res) = true
                ∧ statusCode (on_event ev res) = statusCode res
                ∧ resHeaders (on_event ev res) = resHeaders res
                ∧ sentBody (on_event ev res) = sentBody res).
  { destruct ev as [c| |e]; simpl; unfold Res.write; rewrite ?Hend; simpl;
      rewrite ?Hend; done. }
  destruct Hev as (E1 & E2 & E3 & E4 & E5).
  destruct (IH _ E2) as (H1 & H2 & H3 & H4 & H5).
  by rewrite H1, H2, H3, H4, H5, E1, E3, E4, E5.
Qed.

(** A stream error on an open response writes the error frame, then the
    sentinel, and ends the response. *)
Lemma on_error_frames (e : js_error) (res : response) :
  ended res = false →
  let r := on_event (EvError e) res in
  written r
  = written res ++ [error_frame ("Streaming error: " +:+ err_message e); done_frame]
  ∧ ended r = true ∧ statusCode r = statusCode res
  ∧ resHeaders r = resHeaders res ∧ sentBody r = sentBody res.
Proof.
  intros Hopen. simpl. unfold Res.write. rewrite Hopen. simpl.
  by rewrite <- app_assoc.
Qed.

(** An upstream error in the middle of a relayed stream: the client gets the
    chunks relayed so far, one error frame, one sentinel, and the end. *)
Lemma relay_error_midstream (chunks : list string) (e : js_error)
    (later : list stream_event) (res : response) :
  ended res = false →
  let r := relay ((EvData <$> chunks) ++ EvError e :: later) res in
  written r
  = written res ++ chunks
    ++ [error_frame ("Streaming error: " +:+ err_message e); done_frame]
  ∧ ended r = true.
Proof.
  intros Hopen. cbv zeta. rewrite relay_app.
  change (relay (EvError e :: later) (relay (EvData <$> chunks) res))
    with (relay later (on_event (EvError e) (relay (EvData <$> chunks) res))).
  destruct (relay_data chunks res Hopen) as (D1 & D2 & _).
  destruct (on_error_frames e _ D2) as (F1 & F2 & _).
  destruct (relay_ended later _ F2) as (L1 & L2 & _).
  rewrite L1, L2, F1, D1. by rewrite <- app_assoc.
Qed.

(** When the streaming request itself throws, the client gets status 500,
    one error frame, one sentinel, and the end. *)
Lemma handleStreaming_throw (up : upstream) (targetUrl : string)
    (headers : gmap string string) (body : jobject) (res : response)
    (e : js_error) :
  ended res = false →
  respond_stream up
    (post_stream_request targetUrl headers (<[ "stream" := JBool true ]> body))
  = Throw e →
  let r := snd (handleStreaming up targetUrl headers body res) in
  written r
  = written res ++ [error_frame ("Streaming error: " +:+ err_message e); done_frame]
  ∧ ended r = true ∧ statusCode r = 500.
Proof.
  intros Hopen Hthrow. unfold handleStreaming. rewrite Hthrow. simpl.
  unfold Res.write. simpl. rewrite Hopen. simpl. by rewrite <- app_assoc.
Qed.

(** The upstream connection resets after one chunk: the client gets the
    chunk, one error frame, one sentinel, and the end. *)
Example reset_after_one_chunk :
  let r := reply (Index.app (Sample.hunyuan true) ChatCompletions
                    (Sample.streaming 200 "OK"
                       [EvData Sample.chunk1; EvError Sample.reset])
                    "u1" (Sample.chat ∅)) in
  written r = [Sample.chunk1;
               error_frame "Streaming error: read ECONNRESET";
               done_frame]
  ∧ ended r = true.
Proof. split; reflexivity. Qed.

(** C3. When the upstream answers 200 and its stream yields chunks and then
    ends, the client gets the event-stream headers, then exactly those
    chunks in order, byte for byte, and the response is ended with nothing
    appended. *)
Theorem handleStreaming_relays_chunks (up : upstream) (targetUrl : string)
    (headers : gmap string string) (body : jobject) (res : response)
    (rsp : Axios.response (list stream_event)) (chunks : list string) :
  ended res = false →
  respond_stream up
    (post_stream_request targetUrl headers (<[ "stream" := JBool true ]> body))
  = Return rsp →
  Axios.status rsp = 200 →
  Axios.data rsp = (EvData <$> chunks) ++ [EvEnd] →
  let r := snd (handleStreaming up targetUrl headers body res) in
  written r = written res ++ chunks
  ∧ wire (written r) = wire (written res) +:+ wire chunks
  ∧ ended r = true
  ∧ statusCode r = 200
  ∧ resHeaders r = sse_headers ∪ resHeaders res
  ∧ sentBody r = sentBody res.
Proof.
  intros Hopen Hrsp Hstatus Hdata. unfold handleStreaming.
  rewrite Hrsp, Hstatus, Hdata. cbn [Z.eqb Pos.eqb negb snd].
  rewrite relay_app.
  assert (Hhead : ended (Res.writeHead 200 sse_headers res) = false) by done.
  destruct (relay_data chunks _ Hhead) as (D1 & D2 & D3 & D4 & D5).
  change (relay [EvEnd] ?r) with (Res.end_ r).
  unfold Res.end_. cbn [written ended statusCode resHeaders sentBody].
  rewrite D1, D3, D4, D5. cbn [written ended statusCode resHeaders sentBody Res.writeHead].
  by rewrite wire_app.
Qed.

(** The scenario of two chunks followed by a normal end. *)
Lemma handleStreaming_relays_chunks_witness :
  let r := snd (handleStreaming
                  (Sample.streaming 200 "OK"
                     [EvData Sample.chunk1; EvData done_frame; EvEnd])
                  "https://upstream.example/chat/completions" ∅ ∅ Res.fresh) in
  written r = written Res.fresh ++ [Sample.chunk1; done_frame]
  ∧ wire (written r) = wire (written Res.fresh) +:+ wire [Sample.chunk1; done_frame]
  ∧ ended r = true
  ∧ statusCode r = 200
  ∧ resHeaders r = sse_headers ∪ resHeaders Res.fresh
  ∧ sentBody r = sentBody Res.fresh.
Proof.
  apply (handleStreaming_relays_chunks
           (Sample.streaming 200 "OK"
              [EvData Sample.chunk1; EvData done_frame; EvEnd])
           "https://upstream.example/chat/completions" ∅ ∅ Res.fresh
           (Axios.mkResponse 200 "OK" ∅
              [EvData Sample.chunk1; EvData done_frame; EvEnd])
           [Sample.chunk1; done_frame]); reflexivity.
Defined.

(** When the upstream answers the streaming request with a status other than
    200, the client gets that status, one error frame and the end of the
    response; no sentinel frame is written. *)
Lemma handleStreaming_non200 (up : upstream) (targetUrl : string)
    (headers : gmap string string) (body : jobject) (res : response)
    (rsp : Axios.response (list stream_event)) :
  ended res = false →
  respond_stream up
    (post_stream_request targetUrl headers (<[ "stream" := JBool true ]> body))
  = Return rsp →
  Axios.status rsp ≠ 200 →
  let r := snd (handleStreaming up targetUrl headers body res) in
  written r
  = written res
    ++ [error_frame ("Error from target API: " +:+ Axios.statusText rsp)]
  ∧ ended r = true ∧ statusCode r = Axios.status rsp.
Proof.
  intros Hopen Hrsp Hstatus. unfold handleStreaming. rewrite Hrsp.
  destruct (Z.eqb_spec (Axios.status rsp) 200) as [|_]; [done|].
  simpl. unfold Res.write. simpl. by rewrite Hopen.
Qed.

(** C1. The upstream answers the streaming request with status 204: the
    client gets one error frame and the end of the response, without the
    sentinel frame the other two failure paths write. *)
Theorem handleStreaming_non200_no_sentinel :
  ∀ (targetUrl : string) (headers : gmap string string) (body : jobject),
    let r := snd (handleStreaming (Sample.streaming 204 "No Content" [])
                    targetUrl headers body Res.fresh) in
    written r = [error_frame "Error from target API: No Content"]
    ∧ ended r = true
    ∧ statusCode r = 204
    ∧ done_frame ∉ written r.
Proof.
  intros targetUrl headers body. simpl. repeat split.
  intros Hin. apply list_elem_of_singleton in Hin. discriminate Hin.
Qed.

(** ** The body rules of the chat route *)

Lemma lookup_cond_insert_ne (c : bool) (k k' : string) (v : json)
    (b : jobject) :
  k' ≠ k → (if c then <[ k' := v ]> b else b) !! k = b !! k.
Proof. intros Hne. destruct c; [by rewrite lookup_insert_ne|done]. Qed.

Lemma lookup_cond_insert_eq (c : bool) (k : string) (v : json) (b : jobject) :
  (if c then <[ k := v ]> b else b) !! k = if c then Some v else b !! k.
Proof. destruct c; [by rewrite lookup_insert_eq|done]. Qed.

(** The message rule changes no property other than [messages]. *)
Lemma prepend_system_other (body b : jobject) (k : string) :
  k ≠ "messages" → prepend_system body = Return b → b !! k = body !! k.
Proof.
  intros Hne. unfold prepend_system.
  destruct (body !! "messages") as [v|]; [|by intros [= <-]].
  destruct (truthy v && length_is_one v); [|by intros [= <-]].
  destruct (spread v); [|done].
  intros [= <-]. by rewrite lookup_insert_ne.
Qed.

(** The message rule on an array. *)
Lemma prepend_system_array (body : jobject) (items : list json) :
  body !! "messages" = Some (JArr items) →
  prepend_system body
  = Return (if Nat.eqb (length items) 1
            then <[ "messages" := JArr (system_message :: items) ]> body
            else body).
Proof.
  intros Hm. unfold prepend_system. rewrite Hm. simpl.
  by destruct (Nat.eqb (length items) 1).
Qed.

(** What the rules leave in [stream]: the value supplied when it is truthy,
    the configured default otherwise. *)
Lemma normalize_stream (cfg : Index.config) (uuid : string) (body b : jobject) :
  Index.normalize cfg uuid body = Return b →
  b !! "stream"
  = if truthy_prop (body !! "stream") then body !! "stream"
    else Some (JBool (Index.enableStream cfg)).
Proof.
  unfold Index.normalize.
  destruct (prepend_system _) as [b1|e] eqn:Hp; [|done].
  intros [= <-]. rewrite lookup_cond_insert_eq.
  rewrite (lookup_cond_insert_ne _ "stream" "model") by done.
  apply (prepend_system_other _ _ "stream") in Hp; [|done].
  rewrite Hp. rewrite (lookup_cond_insert_ne _ "stream" "query_id") by done.
  by destruct (truthy_prop (body !! "stream")).
Qed.

(** The chat route forwards the normalized body, with [stream] forced to
    [true] when it takes the streaming path. *)
Lemma chat_forwards_normalized (cfg : Index.config) (up : upstream)
    (uuid : string) (req : request) (res : response) (n : jobject) :
  Index.normalize cfg uuid (body req) = Return n →
  ∃ o, sent (Index.chat_completions cfg up uuid req res) = [o]
       ∧ o_stream o = truthy_prop (n !! "stream")
       ∧ o_data o = Some (if truthy_prop (n !! "stream")
                          then <[ "stream" := JBool true ]> n else n).
Proof.
  intros Hn. unfold Index.chat_completions. rewrite Hn.
  destruct (truthy_prop (n !! "stream")).
  - unfold handleStreaming.
    destruct (respond_stream up _) as [rsp|e].
    + destruct (negb (Axios.status rsp =? 200)); eexists; done.
    + eexists; done.
  - unfold handleNonStreaming.
    destruct (respond up _) as [rsp|e]; eexists; done.
Qed.

(** C4. When [messages] is an array of exactly one element the normalized
    body has two messages, the empty system message and then the original
    one; an array of any other length is left as it is. The chat route
    forwards the body with these messages. *)
Theorem normalize_messages (cfg : Index.config) (uuid : string)
    (req : request) (items : list json) :
  body req !! "messages" = Some (JArr items) →
  ∃ b, Index.normalize cfg uuid (body req) = Return b
       ∧ (∀ m, items = [m] →
            b !! "messages"
            = Some (JArr [JObj {[ "role" := JStr "system";
                                  "content" := JStr "" ]}; m]))
       ∧ (length items ≠ 1%nat → b !! "messages" = Some (JArr items))
       ∧ (∀ up res,
            ∃ o fb, sent (Index.chat_completions cfg up uuid req res) = [o]
                    ∧ o_data o = Some fb
                    ∧ fb !! "messages" = b !! "messages").
Proof.
  intros Hm. unfold Index.normalize.
  assert (Hq : ∀ c v, (if c : bool then <[ "query_id" := v ]> (body req)
                       else body req)
                      !! "messages" = Some (JArr items)).
  { intros c v. by rewrite (lookup_cond_insert_ne _ "messages" "query_id"). }
  rewrite (prepend_system_array _ items) by apply Hq.
  eexists. split; [reflexivity|].
  rewrite !(lookup_cond_insert_ne _ "messages" "stream") by done.
  rewrite !(lookup_cond_insert_ne _ "messages" "model") by done.
  split; [|split].
  - intros m ->. simpl. by rewrite lookup_insert_eq.
  - intros Hlen. destruct (Nat.eqb_spec (length items) 1); [done|]. apply Hq.
  - intros up res.
    edestruct (chat_forwards_normalized cfg up uuid req res) as (o & Hs & _ & Hd).
    { unfold Index.normalize.
      rewrite (prepend_system_array _ items) by apply Hq. reflexivity. }
    eexists o, _. split; [exact Hs|]. split; [exact Hd|].
    rewrite !(lookup_cond_insert_ne _ "messages" "stream") by done.
    by rewrite !(lookup_cond_insert_ne _ "messages" "model") by done.
Qed.

(** A body with the single message of a user. *)
Lemma normalize_messages_witness :
  ∃ b, Index.normalize (Sample.hunyuan false) "u1"
         (body (Sample.chat {[ "messages" := JArr [Sample.user_message] ]}))
       = Return b
       ∧ b !! "messages"
         = Some (JArr [JObj {[ "role" := JStr "system"; "content" := JStr "" ]};
                       Sample.user_message]).
Proof.
  destruct (normalize_messages (Sample.hunyuan false) "u1"
              (Sample.chat {[ "messages" := JArr [Sample.user_message] ]})
              [Sample.user_message])
    as (b & Hb & Hone & _).
  - reflexivity.
  - exists b. split; [exact Hb|]. by apply Hone.
Defined.

(** C5. With streaming as the configured default, a body that supplies
    [stream: false] comes out of the rules with [stream: true], and the chat
    route forwards it as a streaming request. *)
Theorem normalize_overrides_stream_false :
  ∀ (uuid : string) (up : upstream),
    let req := Sample.chat {[ "stream" := JBool false ]} in
    (∃ b, Index.normalize (Sample.hunyuan true) uuid (body req) = Return b
          ∧ b !! "stream" = Some (JBool true))
    ∧ (∃ o, sent (Index.chat_completions (Sample.hunyuan true) up uuid req
                    Res.fresh) = [o]
            ∧ o_stream o = true).
Proof.
  intros uuid up req.
  assert (Hn : ∃ b, Index.normalize (Sample.hunyuan true) uuid (body req)
                    = Return b ∧ b !! "stream" = Some (JBool true)).
  { eexists. split; [reflexivity|]. reflexivity. }
  split; [exact Hn|].
  destruct Hn as (b & Hb & Hs).
  destruct (chat_forwards_normalized (Sample.hunyuan true) up uuid req
              Res.fresh b Hb) as (o & Ho & Hst & _).
  exists o. split; [exact Ho|]. by rewrite Hst, Hs.
Qed.

(** ** What each route sends upstream *)

(** The request a route issues: its headers, and its body when the request
    is a streaming one. *)
Lemma app_sent (cfg : Index.config) (ep : endpoint) (up : upstream)
    (uuid : string) (req : request) (o : outbound) :
  o ∈ sent (Index.app cfg ep up uuid req) →
  o_headers o
  = match ep with
    | ChatCompletions | Completions =>
        Index.buildHeaders cfg
          (Some (or_empty (req_headers req !! "authorization")))
          "application/json"
    | Models =>
        delete "Content-Type"
          (Index.buildHeaders cfg
             (Some (or_empty (req_headers req !! "authorization")))
             "application/json")
    | CatchAll =>
        delete "host"
          (<[ "wsid" := Index.WORKSPACE_ID cfg ]>
             (<[ "authorization" :=
                   Index.processAuthHeader cfg
                     (Some (or_empty (req_headers req !! "authorization"))) ]>
                (req_headers req)))
    end
  ∧ (o_stream o = true →
     ∃ b, o_data o = Some b ∧ b !! "stream" = Some (JBool true)).
Proof.
  destruct ep; simpl.
  - unfold Index.chat_completions.
    destruct (Index.normalize cfg uuid (body req)) as [n|e]; simpl.
    2:{ intros Hin. by apply elem_of_nil in Hin. }
    destruct (truthy_prop (n !! "stream")).
    + unfold handleStreaming.
      destruct (respond_stream up _) as [rsp|e];
        [destruct (negb (Axios.status rsp =? 200))|];
        simpl; intros ->%list_elem_of_singleton; simpl;
        (split; [done|]); intros _; eexists; (split; [done|]);
        apply lookup_insert_eq.
    + unfold handleNonStreaming.
      destruct (respond up _) as [rsp|e];
        simpl; intros ->%list_elem_of_singleton; simpl; done.
  - unfold Index.completions.
    destruct (truthy_prop (body req !! "stream")).
    + unfold handleStreaming.
      destruct (respond_stream up _) as [rsp|e];
        [destruct (negb (Axios.status rsp =? 200))|];
        simpl; intros ->%list_elem_of_singleton; simpl;
        (split; [done|]); intros _; eexists; (split; [done|]);
        apply lookup_insert_eq.
    + unfold handleNonStreaming.
      destruct (respond up _) as [rsp|e];
        simpl; intros ->%list_elem_of_singleton; simpl; done.
  - unfold Index.models.
    destruct (respond up _) as [rsp|e];
      simpl; intros ->%list_elem_of_singleton; simpl; done.
  - unfold Index.catch_all.
    destruct (respond up _) as [rsp|e];
      simpl; intros ->%list_elem_of_singleton; simpl; done.
Qed.

(** C7. The request issued by [handleStreaming] carries a body whose
    [stream] is [true], whatever the body held before; and so does every
    streaming request a route of the application issues. *)
Theorem streaming_request_has_stream_true :
  (∀ (up : upstream) (targetUrl : string) (headers : gmap string string)
     (body : jobject) (res : response),
      let o := fst (handleStreaming up targetUrl headers body res) in
      o_stream o = true
      ∧ ∃ b, o_data o = Some b ∧ b !! "stream" = Some (JBool true))
  ∧ (∀ (cfg : Index.config) (ep : endpoint) (up : upstream) (uuid : string)
       (req : request) (o : outbound),
      o ∈ sent (Index.app cfg ep up uuid req) →
      o_stream o = true →
      ∃ b, o_data o = Some b ∧ b !! "stream" = Some (JBool true)).
Proof.
  split.
  - intros up targetUrl headers body res. unfold handleStreaming.
    destruct (respond_stream up _) as [rsp|e];
      [destruct (negb (Axios.status rsp =? 200))|];
      simpl; (split; [done|]); eexists; (split; [done|]);
      apply lookup_insert_eq.
  - intros cfg ep up uuid req o Hin Hstream.
    by apply (app_sent cfg ep up uuid req o Hin).
Qed.

(** A completion request that asks for a stream with a truthy non-boolean. *)
Lemma streaming_request_has_stream_true_witness :
  ∃ b, o_data
         (post_stream_request "https://upstream.example/v1/completions"
            (Index.buildHeaders (Sample.hunyuan false) (Some "Bearer sk-ABC")
               "application/json")
            (<[ "stream" := JBool true ]> {[ "stream" := JStr "yes" ]}))
       = Some b
       ∧ b !! "stream" = Some (JBool true).
Proof.
  apply (proj2 streaming_request_has_stream_true (Sample.hunyuan false)
           Completions (Sample.streaming 200 "OK" [EvEnd]) "u1"
           (Sample.completion_request {[ "stream" := JStr "yes" ]})).
  - apply list_elem_of_singleton. reflexivity.
  - reflexivity.
Defined.

(** ** Outbound headers *)

Lemma buildHeaders_lookup (cfg : Index.config) (a : option string)
    (ct k : string) :
  Index.buildHeaders cfg a ct !! k
  = if decide (k = "Authorization") then Some (Index.processAuthHeader cfg a)
    else if decide (k = "Wsid") then Some (Index.WORKSPACE_ID cfg)
    else if decide (k = "Content-Type") then Some ct
    else None.
Proof.
  unfold Index.buildHeaders.
  repeat case_decide; subst; simplify_map_eq; done.
Qed.

Lemma processAuthHeader_or_empty (cfg : Index.config) (x : option string) :
  Index.processAuthHeader cfg (Some (or_empty x))
  = Index.processAuthHeader cfg x.
Proof. unfold Index.processAuthHeader. by rewrite or_empty_idem. Qed.

(** C8. On every route, the headers sent upstream hold no [Host] header in
    any spelling, and every header named [Authorization] in any spelling
    holds the value the auth translator computes from the inbound header;
    such a header is always present. *)
Theorem outbound_headers_translated (cfg : Index.config) (ep : endpoint)
    (up : upstream) (uuid : string) (req : request) (o : outbound) :
  lowercase_names (req_headers req) = true →
  o ∈ sent (Index.app cfg ep up uuid req) →
  (∀ k, JsString.toLowerCase k = "host" → o_headers o !! k = None)
  ∧ (∀ k v, JsString.toLowerCase k = "authorization" →
       o_headers o !! k = Some v →
       v = Index.processAuthHeader cfg (req_headers req !! "authorization"))
  ∧ (∃ k, JsString.toLowerCase k = "authorization"
          ∧ o_headers o !! k
            = Some (Index.processAuthHeader cfg
                      (req_headers req !! "authorization"))).
Proof.
  intros Hlow Hin.
  apply bool_decide_eq_true_1 in Hlow.
  destruct (app_sent cfg ep up uuid req o Hin) as [Hh _].
  rewrite Hh. clear Hh Hin.
  assert (Hspecial : ∀ k,
    JsString.toLowerCase k = "host" → k ≠ "Authorization" ∧ k ≠ "Wsid"
                                      ∧ k ≠ "Content-Type").
  { intros k Hk. repeat split; intros ->; discriminate Hk. }
  assert (Hauth : ∀ k,
    JsString.toLowerCase k = "authorization" → k ≠ "Wsid" ∧ k ≠ "Content-Type").
  { intros k Hk. split; intros ->; discriminate Hk. }
  destruct ep.
  1,2: split; [|split].
  1,4: intros k Hk; destruct (Hspecial k Hk) as (? & ? & ?);
       rewrite buildHeaders_lookup; repeat case_decide; done.
  1,3: intros k v Hk; destruct (Hauth k Hk) as (? & ?);
       rewrite buildHeaders_lookup, processAuthHeader_or_empty;
       repeat case_decide; congruence.
  1,2: exists "Authorization"; split; [done|];
       by rewrite buildHeaders_lookup, processAuthHeader_or_empty.
  - split; [|split].
    + intros k Hk. destruct (Hspecial k Hk) as (? & ? & ?).
      rewrite lookup_delete_ne by done.
      rewrite buildHeaders_lookup. repeat case_decide; done.
    + intros k v Hk. destruct (Hauth k Hk) as (? & ?).
      rewrite lookup_delete_ne by done.
      rewrite buildHeaders_lookup, processAuthHeader_or_empty.
      repeat case_decide; congruence.
    + exists "Authorization". split; [done|].
      rewrite lookup_delete_ne by done.
      by rewrite buildHeaders_lookup, processAuthHeader_or_empty.
  - rewrite processAuthHeader_or_empty. split; [|split].
    + intros k Hk. destruct (decide (k = "host")) as [->|Hne].
      { apply lookup_delete_eq. }
      rewrite lookup_delete_ne by done.
      destruct (decide (k = "wsid")) as [->|]; [discriminate Hk|].
      destruct (decide (k = "authorization")) as [->|]; [discriminate Hk|].
      rewrite !lookup_insert_ne by done.
      destruct (req_headers req !! k) as [v|] eqn:Hv; [|done].
      apply Hlow in Hv. simpl in Hv. congruence.
    + intros k v Hk.
      destruct (decide (k = "host")) as [->|Hne]; [discriminate Hk|].
      rewrite lookup_delete_ne by done.
      destruct (decide (k = "wsid")) as [->|]; [discriminate Hk|].
      rewrite lookup_insert_ne by done.
      destruct (decide (k = "authorization")) as [->|Hna].
      { rewrite lookup_insert_eq. congruence. }
      rewrite lookup_insert_ne by done.
      intros Hv. apply Hlow in Hv. simpl in Hv. congruence.
    + exists "authorization". split; [done|].
      rewrite lookup_delete_ne by done.
      rewrite lookup_insert_ne by done.
      apply lookup_insert_eq.
Qed.

(** A [GET] through the catch-all route, with the client's [host] and
    [authorization] headers. *)
Lemma outbound_headers_translated_witness :
  (∀ k, JsString.toLowerCase k = "host" →
        o_headers Sample.forwarded_get_files !! k = None)
  ∧ (∀ k v, JsString.toLowerCase k = "authorization" →
       o_headers Sample.forwarded_get_files !! k = Some v →
       v = Index.processAuthHeader (Sample.hunyuan false)
             (req_headers Sample.get_files !! "authorization"))
  ∧ (∃ k, JsString.toLowerCase k = "authorization"
          ∧ o_headers Sample.forwarded_get_files !! k
            = Some (Index.processAuthHeader (Sample.hunyuan false)
                      (req_headers Sample.get_files !! "authorization"))).
Proof.
  apply (outbound_headers_translated (Sample.hunyuan false) CatchAll
           (Sample.failing Sample.reset) "u1" Sample.get_files
           Sample.forwarded_get_files).
  - vm_compute. reflexivity.
  - apply list_elem_of_singleton. reflexivity.
Defined.

(** ** Failures on the synchronous paths *)

(** C9. On every route, when the upstream call of a synchronous path fails,
    whatever status the failure carries, the client gets status 500 and the
    JSON body [{error: {message, type: 'server_error'}}] with a string
    message; the same holds when the body rules of the chat route throw. *)
Theorem sync_failure_is_500 (cfg : Index.config) (ep : endpoint)
    (up : upstream) (uuid : string) (req : request) (e : js_error) :
  (∃ o, o ∈ sent (Index.app cfg ep up uuid req)
        ∧ o_stream o = false ∧ respond up o = Throw e)
  ∨ (ep = ChatCompletions ∧ Index.normalize cfg uuid (body req) = Throw e) →
  let r := reply (Index.app cfg ep up uuid req) in
  statusCode r = 500
  ∧ (∃ m : string,
       sentBody r
       = Some (JObj {[ "error" :=
                 JObj {[ "message" := JStr m;
                         "type" := JStr "server_error" ]} ]}))
  ∧ resHeaders r !! "Content-Type" = Some "application/json"
  ∧ written r = []
  ∧ ended r = true.
Proof.
  intros [(o & Hin & Hsync & Hthrow)|[-> Hthrow]]; cbv zeta.
  - destruct ep; simpl in *.
    + unfold Index.chat_completions in *.
      destruct (Index.normalize cfg uuid (body req)) as [n|e']; simpl in *.
      2:{ by apply elem_of_nil in Hin. }
      destruct (truthy_prop (n !! "stream")).
      * exfalso. revert Hin. unfold handleStreaming.
        destruct (respond_stream up _) as [rsp|e'];
          [destruct (negb (Axios.status rsp =? 200))|];
          simpl; intros ->%list_elem_of_singleton; discriminate Hsync.
      * revert Hin. unfold handleNonStreaming.
        destruct (respond up (post_request _ _ _)) as [rsp|e'] eqn:Hr;
          simpl; intros ->%list_elem_of_singleton; [congruence|].
        repeat split; eauto.
    + unfold Index.completions in *.
      destruct (truthy_prop (body req !! "stream")).
      * exfalso. revert Hin. unfold handleStreaming.
        destruct (respond_stream up _) as [rsp|e'];
          [destruct (negb (Axios.status rsp =? 200))|];
          simpl; intros ->%list_elem_of_singleton; discriminate Hsync.
      * revert Hin. unfold handleNonStreaming.
        destruct (respond up (post_request _ _ _)) as [rsp|e'] eqn:Hr;
          simpl; intros ->%list_elem_of_singleton; [congruence|].
        repeat split; eauto.
    + unfold Index.models in *.
      destruct (respond up _) as [rsp|e'] eqn:Hr;
        simpl in *; apply list_elem_of_singleton in Hin; subst o; [congruence|].
      repeat split; eauto.
    + unfold Index.catch_all in *.
      destruct (respond up _) as [rsp|e'] eqn:Hr;
        simpl in *; apply list_elem_of_singleton in Hin; subst o; [congruence|].
      repeat split; eauto.
  - simpl. unfold Index.chat_completions. rewrite Hthrow. simpl.
    repeat split; eauto.
Qed.

(** A catch-all request whose upstream call fails with status 502. *)
Lemma sync_failure_is_500_witness :
  let r := reply (Index.app (Sample.hunyuan false) CatchAll
                    (Sample.failing Sample.bad_gateway) "u1" Sample.get_files) in
  statusCode r = 500
  ∧ (∃ m : string,
       sentBody r
       = Some (JObj {[ "error" :=
                 JObj {[ "message" := JStr m;
                         "type" := JStr "server_error" ]} ]}))
  ∧ resHeaders r !! "Content-Type" = Some "application/json"
  ∧ written r = []
  ∧ ended r = true.
Proof.
  apply (sync_failure_is_500 (Sample.hunyuan false) CatchAll
           (Sample.failing Sample.bad_gateway) "u1" Sample.get_files
           Sample.bad_gateway).
  left. exists Sample.forwarded_get_files. split; [|split].
  - apply list_elem_of_singleton. reflexivity.
  - reflexivity.
  - reflexivity.
Defined.

(** ** Where the body rules apply *)

Lemma normalize_empty (cfg : Index.config) (uuid : string) :
  ∃ n, Index.normalize cfg uuid ∅ = Return n
       ∧ n !! "query_id" = Some (JStr ("query_" +:+ uuid)).
Proof.
  exists (<[ "stream" := JBool (Index.enableStream cfg) ]>
            (<[ "model" := JStr (Index.modelName cfg) ]>
               (<[ "query_id" := JStr ("query_" +:+ uuid) ]> ∅))).
  split; [reflexivity|].
  rewrite !lookup_insert_ne by done. apply lookup_insert_eq.
Qed.

(** The completions route forwards the body as it came, with [stream] forced
    to [true] on the streaming path. *)
Lemma completions_forwards_body (cfg : Index.config) (up : upstream)
    (uuid : string) (req : request) :
  ∃ o, sent (Index.app cfg Completions up uuid req) = [o]
       ∧ o_data o = Some (if truthy_prop (body req !! "stream")
                          then <[ "stream" := JBool true ]> (body req)
                          else body req).
Proof.
  simpl. unfold Index.completions.
  destruct (truthy_prop (body req !! "stream")).
  - unfold handleStreaming.
    destruct (respond_stream up _) as [rsp|e];
      [destruct (negb (Axios.status rsp =? 200))|]; eexists; done.
  - unfold handleNonStreaming.
    destruct (respond up _) as [rsp|e]; eexists; done.
Qed.

Lemma completions_not_applies (cfg : Index.config) :
  ¬ applies_normalizer cfg Completions.
Proof.
  intros Happ.
  destruct (normalize_empty cfg "u1") as (n & Hn & Hq).
  destruct (Happ (Sample.failing Sample.reset) "u1"
              (Sample.completion_request ∅) n Hn) as (o & Hs & Hd).
  destruct (completions_forwards_body cfg (Sample.failing Sample.reset) "u1"
              (Sample.completion_request ∅)) as (o' & Hs' & Hd').
  rewrite Hs in Hs'. injection Hs' as <-. rewrite Hd in Hd'.
  injection Hd' as Heq.
  apply (f_equal (λ m : jobject, m !! "query_id")) in Heq.
  change (body (Sample.completion_request ∅)) with (∅ : jobject) in Heq.
  rewrite lookup_empty in Heq. cbn [truthy_prop] in Heq.
  rewrite lookup_empty in Heq.
  destruct (truthy_prop (n !! "stream"));
    rewrite ?lookup_insert_ne in Heq by done; congruence.
Qed.

(** C6, as stated, fails on the completions route: a body with one message
    and nothing else is forwarded as it came, without query id, system
    message, model or stream flag, while the rules would add all four. *)
Lemma completions_not_normalized :
  ¬ applies_normalizer (Sample.hunyuan false) Completions
  ∧ (let req := Sample.completion_request
                  {[ "messages" := JArr [Sample.user_message] ]} in
     ∃ o n,
       sent (Index.app (Sample.hunyuan false) Completions
               (Sample.failing Sample.reset) "u1" req) = [o]
       ∧ o_data o = Some {[ "messages" := JArr [Sample.user_message] ]}
       ∧ Index.normalize (Sample.hunyuan false) "u1" (body req) = Return n
       ∧ n !! "query_id" = Some (JStr "query_u1")
       ∧ n !! "messages"
         = Some (JArr [system_message; Sample.user_message])
       ∧ n !! "model" = Some (JStr "hunyuan-default")
       ∧ n !! "stream" = Some (JBool false)).
Proof.
  split; [apply completions_not_applies|].
  cbv zeta. eexists _, _. repeat split; reflexivity.
Qed.

(** C6, amended. The body rules are applied on the chat route only. The
    completions route forwards the body as it came (with [stream] forced to
    [true] on the streaming path), the models route sends no body, and the
    catch-all route sends the body as it came, or none for [GET] and
    [HEAD]. *)
Theorem normalizer_only_on_chat (cfg : Index.config) :
  applies_normalizer cfg ChatCompletions
  ∧ ¬ applies_normalizer cfg Completions
  ∧ ¬ applies_normalizer cfg Models
  ∧ ¬ applies_normalizer cfg CatchAll
  ∧ (∀ up uuid req,
       ∃ o, sent (Index.app cfg Completions up uuid req) = [o]
            ∧ o_data o = Some (if truthy_prop (body req !! "stream")
                               then <[ "stream" := JBool true ]> (body req)
                               else body req))
  ∧ (∀ up uuid req,
       ∃ o, sent (Index.app cfg Models up uuid req) = [o] ∧ o_data o = None)
  ∧ (∀ up uuid req,
       ∃ o, sent (Index.app cfg CatchAll up uuid req) = [o]
            ∧ o_data o = if negb (String.eqb (method req) "GET")
                            && negb (String.eqb (method req) "HEAD")
                         then Some (body req) else None).
Proof.
  assert (Hmodels : ∀ up uuid req,
    ∃ o, sent (Index.app cfg Models up uuid req) = [o] ∧ o_data o = None).
  { intros up uuid req. simpl. unfold Index.models.
    destruct (respond up _) as [rsp|e]; eexists; done. }
  assert (Hall : ∀ up uuid req,
    ∃ o, sent (Index.app cfg CatchAll up uuid req) = [o]
         ∧ o_data o = if negb (String.eqb (method req) "GET")
                         && negb (String.eqb (method req) "HEAD")
                      then Some (body req) else None).
  { intros up uuid req. simpl. unfold Index.catch_all.
    destruct (respond up _) as [rsp|e]; eexists; done. }
  split; [|split; [|split; [|split; [|split; [|split]]]]].
  - intros up uuid req n Hn.
    destruct (chat_forwards_normalized cfg up uuid req Res.fresh n Hn)
      as (o & Hs & _ & Hd).
    by exists o.
  - apply completions_not_applies.
  - intros Happ.
    destruct (normalize_empty cfg "u1") as (n & Hn & _).
    destruct (Happ (Sample.failing Sample.reset) "u1" Sample.get_files n Hn)
      as (o & Hs & Hd).
    destruct (Hmodels (Sample.failing Sample.reset) "u1" Sample.get_files)
      as (o' & Hs' & Hd').
    rewrite Hs in Hs'. injection Hs' as <-. congruence.
  - intros Happ.
    destruct (normalize_empty cfg "u1") as (n & Hn & _).
    destruct (Happ (Sample.failing Sample.reset) "u1" Sample.get_files n Hn)
      as (o & Hs & Hd).
    destruct (Hall (Sample.failing Sample.reset) "u1" Sample.get_files)
      as (o' & Hs' & Hd').
    rewrite Hs in Hs'. injection Hs' as <-. simpl in Hd'. congruence.
  - intros up uuid req. apply completions_forwards_body.
  - exact Hmodels.
  - exact Hall.
Qed.

(** * Further properties of the body rules *)

Lemma cond_insert_id (c : bool) (k : string) (v : json) (b : jobject) :
  (c = true → b !! k = Some v) → (if c then <[ k := v ]> b else b) = b.
Proof. destruct c; [|done]. intros H. apply insert_id. by apply H. Qed.

(** What the message rule leaves in [messages] is never an array of one
    element, and the rule does nothing on a body with such [messages]. *)
Lemma prepend_system_stable (b b' : jobject) :
  prepend_system b = Return b' →
  (∀ m, b' !! "messages" ≠ Some (JArr [m]))
  ∧ (∀ c : jobject, c !! "messages" = b' !! "messages" →
       prepend_system c = Return c).
Proof.
  unfold prepend_system at 1.
  destruct (b !! "messages") as [v|] eqn:Hv.
  2:{ intros [= <-]. rewrite Hv. split; [done|].
      intros c Hc. unfold prepend_system. by rewrite Hc. }
  destruct (truthy v && length_is_one v) eqn:Hcond.
  - assert (Hitems : ∀ items, spread v = Return items → length items = 1%nat).
    { apply andb_prop in Hcond as [_ Hone].
      destruct v as [| | |s|items0|props]; simpl in *; try done.
      - intros items [= <-]. rewrite length_fmap.
        apply Nat.eqb_eq in Hone. clear -Hone.
        assert (∀ t, length (list_ascii_of_string t) = String.length t) as ->;
          [|done].
        induction t as [|a t IH]; simpl; [done|by rewrite IH].
      - intros items [= <-]. by apply Nat.eqb_eq in Hone. }
    destruct (spread v) as [items|e]; [|done].
    specialize (Hitems items eq_refl).
    intros [= <-]. rewrite lookup_insert_eq. split.
    + intros m [= Hm]. by subst items.
    + intros c Hc. unfold prepend_system. rewrite Hc. simpl.
      destruct items as [|x [|y items]]; simpl in *; done.
  - intros [= <-]. rewrite Hv. split.
    + intros m [= ->]. simpl in Hcond. done.
    + intros c Hc. unfold prepend_system. by rewrite Hc, Hcond.
Qed.

(** The body after each rule of [normalize], named. *)
Lemma normalize_steps (cfg : Index.config) (uuid : string) (body n : jobject) :
  Index.normalize cfg uuid body = Return n →
  ∃ b1 b2 b3,
    b1 = (if negb (truthy_prop (body !! "query_id"))
          then <[ "query_id" := JStr ("query_" +:+ uuid) ]> body else body)
    ∧ prepend_system b1 = Return b2
    ∧ b3 = (if negb (truthy_prop (b2 !! "model"))
            then <[ "model" := JStr (Index.modelName cfg) ]> b2 else b2)
    ∧ n = (if negb (truthy_prop (b3 !! "stream"))
           then <[ "stream" := JBool (Index.enableStream cfg) ]> b3 else b3).
Proof.
  unfold Index.normalize.
  destruct (prepend_system _) as [b2|e] eqn:Hp; [|done].
  intros [= <-]. eexists _, b2, _. done.
Qed.

(** The query id after the rules: the one supplied when truthy, a fresh one
    otherwise. *)
Lemma normalize_query_id (cfg : Index.config) (uuid : string)
    (body n : jobject) :
  Index.normalize cfg uuid body = Return n →
  n !! "query_id"
  = (if truthy_prop (body !! "query_id") then body !! "query_id"
     else Some (JStr ("query_" +:+ uuid)))
  ∧ truthy_prop (n !! "query_id") = true.
Proof.
  intros Hn.
  destruct (normalize_steps cfg uuid body n Hn) as (b1 & b2 & b3 & -> & Hp & -> & ->).
  rewrite !(lookup_cond_insert_ne _ "query_id") by done.
  rewrite (prepend_system_other _ _ "query_id" ltac:(done) Hp).
  rewrite lookup_cond_insert_eq.
  destruct (truthy_prop (body !! "query_id")) eqn:Ht; simpl; [|done].
  by rewrite Ht.
Qed.

(** X2. The rules touch four properties and no other. *)
Theorem normalize_preserves_other (cfg : Index.config) (uuid : string)
    (body n : jobject) (k : string) :
  Index.normalize cfg uuid body = Return n →
  k ≠ "query_id" → k ≠ "messages" → k ≠ "model" → k ≠ "stream" →
  n !! k = body !! k.
Proof.
  intros Hn Hq Hm Hmo Hs.
  destruct (normalize_steps cfg uuid body n Hn) as (b1 & b2 & b3 & -> & Hp & -> & ->).
  rewrite !lookup_cond_insert_ne by done.
  rewrite (prepend_system_other _ _ k Hm Hp).
  by rewrite lookup_cond_insert_ne.
Qed.

Lemma normalize_preserves_other_witness :
  ∃ n, Index.normalize (Sample.hunyuan false) "u1"
         {[ "messages" := JArr [Sample.user_message];
            "temperature" := JStr "0.2" ]} = Return n
       ∧ n !! "temperature" = Some (JStr "0.2").
Proof.
  eexists. split; [reflexivity|].
  etrans;
    [apply (normalize_preserves_other (Sample.hunyuan false) "u1"
              {[ "messages" := JArr [Sample.user_message];
                 "temperature" := JStr "0.2" ]} _ "temperature");
       [reflexivity|done|done|done|done]
    |reflexivity].
Defined.

(** X3. A truthy [query_id] or [model] is kept; a missing or falsy one is
    replaced, by [query_] followed by the fresh uuid, or by the configured
    model name. The query id of a normalized body is never falsy. *)
Theorem normalize_query_id_model (cfg : Index.config) (uuid : string)
    (body n : jobject) :
  Index.normalize cfg uuid body = Return n →
  n !! "query_id"
  = (if truthy_prop (body !! "query_id") then body !! "query_id"
     else Some (JStr ("query_" +:+ uuid)))
  ∧ truthy_prop (n !! "query_id") = true
  ∧ n !! "model"
    = (if truthy_prop (body !! "model") then body !! "model"
       else Some (JStr (Index.modelName cfg))).
Proof.
  intros Hn.
  destruct (normalize_steps cfg uuid body n Hn) as (b1 & b2 & b3 & -> & Hp & -> & ->).
  assert (Hq : b2 !! "query_id"
               = (if truthy_prop (body !! "query_id") then body !! "query_id"
                  else Some (JStr ("query_" +:+ uuid)))).
  { rewrite (prepend_system_other _ _ "query_id" ltac:(done) Hp).
    rewrite lookup_cond_insert_eq.
    by destruct (truthy_prop (body !! "query_id")). }
  assert (Hm : b2 !! "model" = body !! "model").
  { rewrite (prepend_system_other _ _ "model" ltac:(done) Hp).
    by rewrite lookup_cond_insert_ne. }
  rewrite !(lookup_cond_insert_ne _ "query_id") by done.
  rewrite (lookup_cond_insert_ne _ "model" "stream") by done.
  rewrite lookup_cond_insert_eq, Hq, Hm.
  split; [done|]. split.
  - destruct (truthy_prop (body !! "query_id")) eqn:Ht; done.
  - by destruct (truthy_prop (body !! "model")).
Qed.

Lemma normalize_query_id_model_witness :
  ∃ n, Index.normalize (Sample.hunyuan false) "u1"
         {[ "query_id" := JStr ""; "model" := JStr "custom" ]} = Return n
       ∧ n !! "query_id" = Some (JStr "query_u1")
       ∧ n !! "model" = Some (JStr "custom").
Proof.
  eexists. split; [reflexivity|].
  edestruct (normalize_query_id_model (Sample.hunyuan false) "u1"
               {[ "query_id" := JStr ""; "model" := JStr "custom" ]})
    as (Hq & _ & Hm); [reflexivity|].
  split; [exact Hq|exact Hm].
Defined.

(** X4. Normalizing a normalized body, with any other uuid, changes nothing. *)
Theorem normalize_idempotent (cfg : Index.config) (uuid uuid' : string)
    (body n : jobject) :
  Index.normalize cfg uuid body = Return n →
  Index.normalize cfg uuid' n = Return n.
Proof.
  intros Hn.
  destruct (normalize_steps cfg uuid body n Hn) as (b1 & b2 & b3 & Hb1 & Hp & Hb3 & Hbn).
  destruct (normalize_query_id cfg uuid body n Hn) as (_ & Hq).
  destruct (prepend_system_stable b1 b2 Hp) as [_ Hstable].
  assert (Hmsg : n !! "messages" = b2 !! "messages").
  { rewrite Hbn, Hb3. by rewrite !lookup_cond_insert_ne. }
  assert (Hmodel : truthy_prop (n !! "model") = false →
                   n !! "model" = Some (JStr (Index.modelName cfg))).
  { rewrite Hbn, (lookup_cond_insert_ne _ "model" "stream") by done.
    rewrite Hb3, lookup_cond_insert_eq.
    destruct (truthy_prop (b2 !! "model")) eqn:Ht; simpl; [|done].
    rewrite Ht. done. }
  assert (Hstream : truthy_prop (n !! "stream") = false →
                    n !! "stream" = Some (JBool (Index.enableStream cfg))).
  { rewrite Hbn, lookup_cond_insert_eq.
    destruct (truthy_prop (b3 !! "stream")) eqn:Ht; simpl; [|done].
    rewrite Ht. done. }
  unfold Index.normalize. rewrite Hq. simpl.
  rewrite (Hstable n Hmsg).
  rewrite (cond_insert_id _ "model" _ n).
  2:{ intros Hc. apply Hmodel. by destruct (truthy_prop (n !! "model")). }
  rewrite (cond_insert_id _ "stream" _ n).
  2:{ intros Hc. apply Hstream. by destruct (truthy_prop (n !! "stream")). }
  done.
Qed.

Lemma normalize_idempotent_witness :
  ∃ n, Index.normalize (Sample.hunyuan false) "u1"
         {[ "messages" := JArr [Sample.user_message] ]} = Return n
       ∧ Index.normalize (Sample.hunyuan false) "u2" n = Return n.
Proof.
  eexists. split; [reflexivity|].
  apply (normalize_idempotent (Sample.hunyuan false) "u1" "u2"
           {[ "messages" := JArr [Sample.user_message] ]}).
  reflexivity.
Defined.

(** X5. Whatever JSON value [messages] held, after the rules it is not an array
    of exactly one element. *)
Theorem normalize_messages_never_single (cfg : Index.config) (uuid : string)
    (body n : jobject) (m : json) :
  Index.normalize cfg uuid body = Return n →
  n !! "messages" ≠ Some (JArr [m]).
Proof.
  intros Hn.
  destruct (normalize_steps cfg uuid body n Hn) as (b1 & b2 & b3 & _ & Hp & -> & ->).
  rewrite !lookup_cond_insert_ne by done.
  by apply (prepend_system_stable b1 b2 Hp).
Qed.

(** A one-character string in [messages] is spread like an array. *)
Lemma normalize_messages_never_single_witness :
  ∃ n, Index.normalize (Sample.hunyuan false) "u1"
         {[ "messages" := JStr "a" ]} = Return n
       ∧ n !! "messages" = Some (JArr [system_message; JStr "a"])
       ∧ n !! "messages" ≠ Some (JArr [JStr "a"]).
Proof.
  eexists. split; [reflexivity|]. split; [reflexivity|].
  apply (normalize_messages_never_single (Sample.hunyuan false) "u1"
           {[ "messages" := JStr "a" ]}).
  reflexivity.
Defined.

Lemma prepend_system_throws (b : jobject) :
  (∃ e, prepend_system b = Throw e)
  ↔ (∃ props x, b !! "messages" = Some (JObj props)
                ∧ props !! "length" = Some (JNum x)
                ∧ PrimFloat.eqb x 1%float = true).
Proof.
  unfold prepend_system.
  destruct (b !! "messages") as [v|].
  2:{ split; [intros [e He]; discriminate He|intros (? & ? & ? & _); done]. }
  destruct v as [| | |s|items|props]; cbn [truthy length_is_one andb spread].
  1-3: rewrite ?andb_false_r;
    (split; [intros [e He]; discriminate He|intros (? & ? & ? & _); done]).
  - destruct (JsString.nonempty s && Nat.eqb (String.length s) 1);
      (split; [intros [e He]; discriminate He|intros (? & ? & ? & _); done]).
  - destruct (Nat.eqb (length items) 1);
      (split; [intros [e He]; discriminate He|intros (? & ? & ? & _); done]).
  - destruct (props !! "length") as [w|] eqn:Hl.
    2:{ split; [intros [e He]; discriminate He|].
        intros (p & y & [= <-] & Hy & _). congruence. }
    destruct w as [| |x| | |].
    3:{ destruct (PrimFloat.eqb x 1) eqn:Hx.
        - split; [|by eexists]. intros _. by exists props, x.
        - split; [intros [e He]; discriminate He|].
          intros (p & y & [= <-] & Hy & Heq). congruence. }
    all: split; [intros [e He]; discriminate He|];
      intros (p & y & [= <-] & Hy & _); congruence.
Qed.

(** X6. The rules throw in one case only: [messages] is an object whose
    [length] property is the number 1, which passes the length test and
    cannot be spread. Then the chat route sends nothing upstream. *)
Theorem normalize_throws_iff (cfg : Index.config) (uuid : string)
    (req : request) :
  ((∃ e, Index.normalize cfg uuid (body req) = Throw e)
   ↔ (∃ props x, body req !! "messages" = Some (JObj props)
                 ∧ props !! "length" = Some (JNum x)
                 ∧ PrimFloat.eqb x 1%float = true))
  ∧ ((∃ e, Index.normalize cfg uuid (body req) = Throw e) →
     ∀ up res, sent (Index.chat_completions cfg up uuid req res) = []).
Proof.
  split.
  - set (b1 := if negb (truthy_prop (body req !! "query_id"))
               then <[ "query_id" := JStr ("query_" +:+ uuid) ]> (body req)
               else body req).
    assert (Hm : b1 !! "messages" = body req !! "messages").
    { unfold b1. by rewrite lookup_cond_insert_ne. }
    rewrite <- Hm, <- prepend_system_throws.
    unfold Index.normalize. fold b1.
    destruct (prepend_system b1) as [b2|e0].
    + split; intros [e He]; discriminate He.
    + split; intros _; by eexists.
  - intros [e He] up res. unfold Index.chat_completions. by rewrite He.
Qed.

(** The messages that throw, and what the client gets. *)
Example messages_object_with_length :
  let e := Index.app (Sample.hunyuan false) ChatCompletions
             (Sample.streaming 200 "OK" [EvEnd]) "u1"
             (Sample.chat {[ "messages" :=
                               JObj {[ "length" := JNum 1%float ]} ]}) in
  sent e = [] ∧ statusCode (reply e) = 500
  ∧ sentBody (reply e) = Some (server_error "body.messages is not iterable").
Proof. repeat split; reflexivity. Qed.

(** * Further properties of the routes *)

(** The request each route of [index.js] issues, in full. *)
Lemma chat_sent (cfg : Index.config) (up : upstream) (uuid : string)
    (req : request) (res : response) (n : jobject) :
  Index.normalize cfg uuid (body req) = Return n →
  sent (Index.chat_completions cfg up uuid req res)
  = [let headers :=
       Index.buildHeaders cfg
         (Some (or_empty (req_headers req !! "authorization")))
         "application/json" in
     let url := Index.TARGET_API_BASE_URL cfg +:+ "/chat/completions" in
     if truthy_prop (n !! "stream")
     then post_stream_request url headers (<[ "stream" := JBool true ]> n)
     else post_request url headers n].
Proof.
  intros Hn. unfold Index.chat_completions. rewrite Hn. cbv zeta.
  destruct (truthy_prop (n !! "stream")).
  - unfold handleStreaming.
    destruct (respond_stream up _) as [rsp|e];
      [destruct (negb (Axios.status rsp =? 200))|]; done.
  - unfold handleNonStreaming. destruct (respond up _) as [rsp|e]; done.
Qed.

Lemma completions_sent (cfg : Index.config) (up : upstream) (req : request)
    (res : response) :
  sent (Index.completions cfg up req res)
  = [let headers :=
       Index.buildHeaders cfg
         (Some (or_empty (req_headers req !! "authorization")))
         "application/json" in
     let url := Index.TARGET_API_BASE_URL cfg +:+ "/v1/completions" in
     if truthy_prop (body req !! "stream")
     then post_stream_request url headers
            (<[ "stream" := JBool true ]> (body req))
     else post_request url headers (body req)].
Proof.
  unfold Index.completions. cbv zeta.
  destruct (truthy_prop (body req !! "stream")).
  - unfold handleStreaming.
    destruct (respond_stream up _) as [rsp|e];
      [destruct (negb (Axios.status rsp =? 200))|]; done.
  - unfold handleNonStreaming. destruct (respond up _) as [rsp|e]; done.
Qed.

Lemma models_sent (cfg : Index.config) (up : upstream) (req : request)
    (res : response) :
  sent (Index.models cfg up req res)
  = [{| o_method := "GET";
        o_url := Index.TARGET_API_BASE_URL cfg +:+ "/v1/models";
        o_headers :=
          delete "Content-Type"
            (Index.buildHeaders cfg
               (Some (or_empty (req_headers req !! "authorization")))
               "application/json");
        o_data := None; o_params := ∅; o_stream := false;
        o_timeout := 60000 |}].
Proof. unfold Index.models. destruct (respond up _) as [rsp|e]; done. Qed.

Lemma catch_all_sent (cfg : Index.config) (up : upstream) (req : request)
    (res : response) :
  sent (Index.catch_all cfg up req res)
  = [{| o_method := method req;
        o_url := Index.TARGET_API_BASE_URL cfg +:+ "/"
                 +:+ (if JsString.startsWith (path req) "/"
                      then JsString.substring 1 (path req) else path req);
        o_headers :=
          delete "host"
            (<[ "wsid" := Index.WORKSPACE_ID cfg ]>
               (<[ "authorization" :=
                     Index.processAuthHeader cfg
                       (Some (or_empty (req_headers req !! "authorization"))) ]>
                  (req_headers req)));
        o_data := if negb (String.eqb (method req) "GET")
                     && negb (String.eqb (method req) "HEAD")
                  then Some (body req) else None;
        o_params := query req; o_stream := false; o_timeout := 60000 |}].
Proof. unfold Index.catch_all. destruct (respond up _) as [rsp|e]; done. Qed.

Lemma truthy_normalized_stream (cfg : Index.config) (uuid : string)
    (body n : jobject) :
  Index.normalize cfg uuid body = Return n →
  truthy_prop (n !! "stream")
  = truthy_prop (body !! "stream") || Index.enableStream cfg.
Proof.
  intros Hn. rewrite (normalize_stream cfg uuid body n Hn).
  destruct (truthy_prop (body !! "stream")) eqn:Ht; [by rewrite Ht|done].
Qed.

(** X7. The chat route streams when the body's [stream] is truthy or streaming
    is the configured default; the completions route streams when the
    body's [stream] is truthy, whatever the default; the other two routes
    never stream. *)
Theorem dispatch_decision (cfg : Index.config) (up : upstream)
    (uuid : string) (req : request) :
  match Index.normalize cfg uuid (body req) with
  | Return _ =>
      ∃ o, sent (Index.app cfg ChatCompletions up uuid req) = [o]
           ∧ o_stream o
             = truthy_prop (body req !! "stream") || Index.enableStream cfg
  | Throw _ => sent (Index.app cfg ChatCompletions up uuid req) = []
  end
  ∧ (∃ o, sent (Index.app cfg Completions up uuid req) = [o]
          ∧ o_stream o = truthy_prop (body req !! "stream"))
  ∧ (∃ o, sent (Index.app cfg Models up uuid req) = [o] ∧ o_stream o = false)
  ∧ (∃ o, sent (Index.app cfg CatchAll up uuid req) = [o]
          ∧ o_stream o = false).
Proof.
  split; [|split; [|split]].
  - destruct (Index.normalize cfg uuid (body req)) as [n|e] eqn:Hn.
    + simpl. rewrite (chat_sent cfg up uuid req Res.fresh n Hn).
      eexists. split; [reflexivity|].
      rewrite <- (truthy_normalized_stream cfg uuid (body req) n Hn).
      cbv zeta. by destruct (truthy_prop (n !! "stream")).
    + simpl. unfold Index.chat_completions. by rewrite Hn.
  - simpl. rewrite completions_sent. eexists. split; [reflexivity|].
    cbv zeta. by destruct (truthy_prop (body req !! "stream")).
  - simpl. rewrite models_sent. by eexists.
  - simpl. rewrite catch_all_sent. by eexists.
Qed.

(** X8. No route issues more than one upstream request for an inbound request,
    whatever the upstream answers; exactly one is issued unless the body
    rules of the chat route throw. *)
Theorem one_request_per_inbound (cfg : Index.config) (ep : endpoint)
    (up : upstream) (uuid : string) (req : request) :
  (length (sent (Index.app cfg ep up uuid req)) ≤ 1)%nat
  ∧ (sent (Index.app cfg ep up uuid req) = []
     ↔ ep = ChatCompletions
       ∧ ∃ e, Index.normalize cfg uuid (body req) = Throw e).
Proof.
  destruct ep; simpl.
  - destruct (Index.normalize cfg uuid (body req)) as [n|e] eqn:Hn.
    + rewrite (chat_sent cfg up uuid req Res.fresh n Hn). simpl.
      split; [lia|]. split; [done|]. by intros [_ [e ?]].
    + unfold Index.chat_completions. rewrite Hn. simpl.
      split; [lia|]. split; [|done]. intros _. split; [done|by exists e].
  - rewrite completions_sent. simpl. split; [lia|]. split; [done|by intros [? _]].
  - rewrite models_sent. simpl. split; [lia|]. split; [done|by intros [? _]].
  - rewrite catch_all_sent. simpl. split; [lia|]. split; [done|by intros [? _]].
Qed.

(** X9. Plain requests carry the 60 second timeout, streaming requests none. *)
Theorem request_timeouts (cfg : Index.config) (ep : endpoint)
    (up : upstream) (uuid : string) (req : request) :
  Forall (λ o, o_timeout o = if o_stream o then 0 else 60000)
    (sent (Index.app cfg ep up uuid req)).
Proof.
  destruct ep; simpl.
  - destruct (Index.normalize cfg uuid (body req)) as [n|e] eqn:Hn.
    + rewrite (chat_sent cfg up uuid req Res.fresh n Hn). cbv zeta.
      apply Forall_singleton. by destruct (truthy_prop (n !! "stream")).
    + unfold Index.chat_completions. rewrite Hn. apply Forall_nil_2.
  - rewrite completions_sent. cbv zeta. apply Forall_singleton.
    by destruct (truthy_prop (body req !! "stream")).
  - rewrite models_sent. by apply Forall_singleton.
  - rewrite catch_all_sent. by apply Forall_singleton.
Qed.

(** ** Replies *)

Lemma relay_terminates (events : list stream_event) (res : response) :
  terminates events = true → ended (relay events res) = true.
Proof.
  revert res. induction events as [|ev events IH]; intros res Ht; [done|].
  simpl in Ht. apply orb_prop in Ht as [Hev|Hrest].
  - assert (Hend : ended (on_event ev res) = true).
    { destruct ev as [c| |e]; [done|done|]. simpl.
      unfold Res.write. by destruct (ended res). }
    simpl. by apply (relay_ended events _ Hend).
  - simpl. by apply IH.
Qed.

Lemma handleStreaming_ends (up : upstream) (targetUrl : string)
    (headers : gmap string string) (body : jobject) (res : response) :
  (∀ o rsp, respond_stream up o = Return rsp →
            terminates (Axios.data rsp) = true) →
  ended (snd (handleStreaming up targetUrl headers body res)) = true.
Proof.
  intros Hterm. unfold handleStreaming.
  destruct (respond_stream up _) as [rsp|e] eqn:Hr; [|done].
  destruct (negb (Axios.status rsp =? 200)); [done|].
  simpl. apply relay_terminates. by apply (Hterm _ _ Hr).
Qed.

(** X10. As long as every upstream stream delivers [end] or [error] at some
    point, every route ends the client's response: on success, on failure,
    and when the body rules throw. *)
Theorem reply_always_ended (cfg : Index.config) (ep : endpoint)
    (up : upstream) (uuid : string) (req : request) :
  (∀ o rsp, respond_stream up o = Return rsp →
            terminates (Axios.data rsp) = true) →
  ended (reply (Index.app cfg ep up uuid req)) = true.
Proof.
  intros Hterm. destruct ep; simpl.
  - unfold Index.chat_completions.
    destruct (Index.normalize cfg uuid (body req)) as [n|e]; [|done].
    cbv zeta. destruct (truthy_prop (n !! "stream")).
    + pose proof (handleStreaming_ends up
        (Index.TARGET_API_BASE_URL cfg +:+ "/chat/completions")
        (Index.buildHeaders cfg
           (Some (or_empty (req_headers req !! "authorization")))
           "application/json") n Res.fresh Hterm) as He.
      by destruct (handleStreaming _ _ _ _ _).
    + unfold handleNonStreaming. by destruct (respond up _).
  - unfold Index.completions. cbv zeta.
    destruct (truthy_prop (body req !! "stream")).
    + pose proof (handleStreaming_ends up
        (Index.TARGET_API_BASE_URL cfg +:+ "/v1/completions")
        (Index.buildHeaders cfg
           (Some (or_empty (req_headers req !! "authorization")))
           "application/json") (body req) Res.fresh Hterm) as He.
      by destruct (handleStreaming _ _ _ _ _).
    + unfold handleNonStreaming. by destruct (respond up _).
  - unfold Index.models. by destruct (respond up _).
  - unfold Index.catch_all. by destruct (respond up _).
Qed.

Lemma reply_always_ended_witness :
  ended (reply (Index.app (Sample.hunyuan true) ChatCompletions
                  (Sample.streaming 200 "OK"
                     [EvData Sample.chunk1; EvError Sample.reset])
                  "u1" (Sample.chat ∅))) = true.
Proof.
  apply reply_always_ended.
  intros o rsp [= <-]. reflexivity.
Defined.

(** X11. On the three specialized routes a successful plain call hands the
    upstream's status, whatever it is, and the upstream's body to the
    client, as the whole body of an ended response. *)
Theorem specialized_success_relays (cfg : Index.config) (ep : endpoint)
    (up : upstream) (uuid : string) (req : request) (o : outbound)
    (rsp : Axios.response json) :
  ep ≠ CatchAll →
  o ∈ sent (Index.app cfg ep up uuid req) →
  o_stream o = false →
  respond up o = Return rsp →
  let r := reply (Index.app cfg ep up uuid req) in
  statusCode r = Axios.status rsp
  ∧ sentBody r = Some (Axios.data rsp)
  ∧ written r = []
  ∧ ended r = true.
Proof.
  intros Hep Hin Hsync Hrsp. destruct ep; [| | |done]; simpl in *.
  - destruct (Index.normalize cfg uuid (body req)) as [n|e] eqn:Hn.
    2:{ unfold Index.chat_completions in Hin. rewrite Hn in Hin.
        by apply elem_of_nil in Hin. }
    rewrite (chat_sent cfg up uuid req Res.fresh n Hn) in Hin.
    apply list_elem_of_singleton in Hin. cbv zeta in Hin.
    unfold Index.chat_completions. rewrite Hn. cbv zeta.
    destruct (truthy_prop (n !! "stream")); [by subst o|].
    subst o. unfold handleNonStreaming. by rewrite Hrsp.
  - rewrite completions_sent in Hin.
    apply list_elem_of_singleton in Hin. cbv zeta in Hin.
    unfold Index.completions. cbv zeta.
    destruct (truthy_prop (body req !! "stream")); [by subst o|].
    subst o. unfold handleNonStreaming. by rewrite Hrsp.
  - rewrite models_sent in Hin. apply list_elem_of_singleton in Hin.
    subst o. unfold Index.models. by rewrite Hrsp.
Qed.

Lemma specialized_success_relays_witness :
  let r := reply (Index.app (Sample.hunyuan false) ChatCompletions
                    Sample.creating "u1" (Sample.chat ∅)) in
  statusCode r = 201
  ∧ sentBody r = Some (JObj {[ "id" := JStr "cmpl-1" ]})
  ∧ written r = []
  ∧ ended r = true.
Proof.
  apply (specialized_success_relays (Sample.hunyuan false) ChatCompletions
           Sample.creating "u1" (Sample.chat ∅) Sample.forwarded_chat
           Sample.created).
  - done.
  - apply list_elem_of_singleton. reflexivity.
  - reflexivity.
  - reflexivity.
Defined.



(** ** The catch-all route *)

(** X13. The catch-all route passes on every inbound header except [host],
    [authorization] and [wsid] as it came, and always sends the configured
    workspace id, also when the client sent a [wsid] of its own. *)
Theorem catch_all_preserves_headers (cfg : Index.config) (up : upstream)
    (uuid : string) (req : request) :
  ∃ o, sent (Index.app cfg CatchAll up uuid req) = [o]
       ∧ (∀ k, k ≠ "host" → k ≠ "authorization" → k ≠ "wsid" →
               o_headers o !! k = req_headers req !! k)
       ∧ o_headers o !! "wsid" = Some (Index.WORKSPACE_ID cfg).
Proof.
  simpl. rewrite catch_all_sent. eexists. split; [reflexivity|]. simpl. split.
  - intros k Hh Ha Hw.
    rewrite lookup_delete_ne by done. by rewrite !lookup_insert_ne.
  - rewrite lookup_delete_ne by done. apply lookup_insert_eq.
Qed.

(** X14. The catch-all route keeps the method and the query parameters, and
    asks the upstream for the path it was asked for: an inbound path [/p]
    goes to the base URL followed by [/p]. *)
Theorem catch_all_target (cfg : Index.config) (up : upstream)
    (uuid : string) (req : request) :
  ∃ o, sent (Index.app cfg CatchAll up uuid req) = [o]
       ∧ o_method o = method req
       ∧ o_params o = query req
       ∧ (∀ p, path req = "/" +:+ p →
               o_url o = Index.TARGET_API_BASE_URL cfg +:+ path req)
       ∧ (JsString.startsWith (path req) "/" = false →
          o_url o = Index.TARGET_API_BASE_URL cfg +:+ "/" +:+ path req).
Proof.
  simpl. rewrite catch_all_sent. eexists. split; [reflexivity|]. simpl.
  split; [done|]. split; [done|]. split.
  - intros p ->. done.
  - by intros ->.
Qed.

(** ** Failures *)

(** X15. On the chat and completions routes, a streaming request that throws
    gives the client status 500 and exactly two writes, the error frame
    and the sentinel, and no JSON body. *)
Theorem streaming_failure_frames (cfg : Index.config) (ep : endpoint)
    (up : upstream) (uuid : string) (req : request) (o : outbound)
    (e : js_error) :
  o ∈ sent (Index.app cfg ep up uuid req) →
  o_stream o = true →
  respond_stream up o = Throw e →
  let r := reply (Index.app cfg ep up uuid req) in
  statusCode r = 500
  ∧ written r
    = [error_frame ("Streaming error: " +:+ err_message e); done_frame]
  ∧ sentBody r = None
  ∧ ended r = true.
Proof.
  intros Hin Hstream Hthrow. destruct ep; simpl in *.
  - destruct (Index.normalize cfg uuid (body req)) as [n|e'] eqn:Hn.
    2:{ unfold Index.chat_completions in Hin. rewrite Hn in Hin.
        by apply elem_of_nil in Hin. }
    rewrite (chat_sent cfg up uuid req Res.fresh n Hn) in Hin.
    apply list_elem_of_singleton in Hin. cbv zeta in Hin.
    unfold Index.chat_completions. rewrite Hn. cbv zeta.
    destruct (truthy_prop (n !! "stream")); [|by subst o].
    subst o. unfold handleStreaming. by rewrite Hthrow.
  - rewrite completions_sent in Hin.
    apply list_elem_of_singleton in Hin. cbv zeta in Hin.
    unfold Index.completions. cbv zeta.
    destruct (truthy_prop (body req !! "stream")); [|by subst o].
    subst o. unfold handleStreaming. by rewrite Hthrow.
  - rewrite models_sent in Hin. apply list_elem_of_singleton in Hin.
    by subst o.
  - rewrite catch_all_sent in Hin. apply list_elem_of_singleton in Hin.
    by subst o.
Qed.

Lemma streaming_failure_frames_witness :
  let r := reply (Index.app (Sample.hunyuan true) ChatCompletions
                    (Sample.failing Sample.bad_gateway) "u1"
                    (Sample.chat ∅)) in
  statusCode r = 500
  ∧ written r
    = [error_frame "Streaming error: Request failed with status code 502";
       done_frame]
  ∧ sentBody r = None
  ∧ ended r = true.
Proof.
  apply (streaming_failure_frames (Sample.hunyuan true) ChatCompletions
           (Sample.failing Sample.bad_gateway) "u1" (Sample.chat ∅)
           Sample.forwarded_chat_stream Sample.bad_gateway).
  - apply list_elem_of_singleton. reflexivity.
  - reflexivity.
  - reflexivity.
Defined.

(** X16. An upstream error after some chunks were relayed: the client keeps
    status 200 and the event-stream headers, and gets the chunks, then one
    error frame, then one sentinel, and the end; events after the error
    add nothing. *)
Theorem handleStreaming_error_midstream (up : upstream) (targetUrl : string)
    (headers : gmap string string) (body : jobject) (res : response)
    (rsp : Axios.response (list stream_event)) (chunks : list string)
    (e : js_error) (later : list stream_event) :
  ended res = false →
  respond_stream up
    (post_stream_request targetUrl headers (<[ "stream" := JBool true ]> body))
  = Return rsp →
  Axios.status rsp = 200 →
  Axios.data rsp = (EvData <$> chunks) ++ EvError e :: later →
  let r := snd (handleStreaming up targetUrl headers body res) in
  written r
  = written res ++ chunks
    ++ [error_frame ("Streaming error: " +:+ err_message e); done_frame]
  ∧ ended r = true
  ∧ statusCode r = 200
  ∧ resHeaders r = sse_headers ∪ resHeaders res
  ∧ sentBody r = sentBody res.
Proof.
  intros Hopen Hrsp Hstatus Hdata. unfold handleStreaming.
  rewrite Hrsp, Hstatus, Hdata. cbn [Z.eqb Pos.eqb negb snd].
  rewrite relay_app.
  change (relay (EvError e :: later) ?r)
    with (relay later (on_event (EvError e) r)).
  assert (Hhead : ended (Res.writeHead 200 sse_headers res) = false) by done.
  destruct (relay_data chunks _ Hhead) as (D1 & D2 & D3 & D4 & D5).
  destruct (on_error_frames e _ D2) as (F1 & F2 & F3 & F4 & F5).
  destruct (relay_ended later _ F2) as (L1 & L2 & L3 & L4 & L5).
  rewrite L1, L2, L3, L4, L5, F1, F3, F4, F5, D1, D3, D4, D5.
  cbn [written ended statusCode resHeaders sentBody Res.writeHead].
  by rewrite <- app_assoc.
Qed.

Lemma handleStreaming_error_midstream_witness :
  let r := snd (handleStreaming
                  (Sample.streaming 200 "OK"
                     [EvData Sample.chunk1; EvError Sample.reset])
                  "https://upstream.example/chat/completions" ∅ ∅ Res.fresh) in
  written r
  = written Res.fresh ++ [Sample.chunk1]
    ++ [error_frame ("Streaming error: " +:+ err_message Sample.reset);
        done_frame]
  ∧ ended r = true
  ∧ statusCode r = 200
  ∧ resHeaders r = sse_headers ∪ resHeaders Res.fresh
  ∧ sentBody r = sentBody Res.fresh.
Proof.
  apply (handleStreaming_error_midstream
           (Sample.streaming 200 "OK"
              [EvData Sample.chunk1; EvError Sample.reset])
           "https://upstream.example/chat/completions" ∅ ∅ Res.fresh
           (Axios.mkResponse 200 "OK" ∅
              [EvData Sample.chunk1; EvError Sample.reset])
           [Sample.chunk1] Sample.reset []); reflexivity.
Defined.

(** X17. The message of the 500 body: the chat and completions routes report
    the failure of a plain call as [Error forwarding request: ] followed by
    the error converted to a string (its name, a colon and its message);
    the models and catch-all routes put the error's message alone after the
    same prefix. *)
Theorem sync_failure_message (cfg : Index.config) (ep : endpoint)
    (up : upstream) (uuid : string) (req : request) (o : outbound)
    (e : js_error) :
  o ∈ sent (Index.app cfg ep up uuid req) →
  o_stream o = false →
  respond up o = Throw e →
  sentBody (reply (Index.app cfg ep up uuid req))
  = Some (server_error
            ("Error forwarding request: "
             +:+ match ep with
                 | ChatCompletions | Completions => error_toString e
                 | Models | CatchAll => err_message e
                 end)).
Proof.
  intros Hin Hsync Hthrow. destruct ep; simpl in *.
  - destruct (Index.normalize cfg uuid (body req)) as [n|e'] eqn:Hn.
    2:{ unfold Index.chat_completions in Hin. rewrite Hn in Hin.
        by apply elem_of_nil in Hin. }
    rewrite (chat_sent cfg up uuid req Res.fresh n Hn) in Hin.
    apply list_elem_of_singleton in Hin. cbv zeta in Hin.
    unfold Index.chat_completions. rewrite Hn. cbv zeta.
    destruct (truthy_prop (n !! "stream")); [by subst o|].
    subst o. unfold handleNonStreaming. by rewrite Hthrow.
  - rewrite completions_sent in Hin.
    apply list_elem_of_singleton in Hin. cbv zeta in Hin.
    unfold Index.completions. cbv zeta.
    destruct (truthy_prop (body req !! "stream")); [by subst o|].
    subst o. unfold handleNonStreaming. by rewrite Hthrow.
  - rewrite models_sent in Hin. apply list_elem_of_singleton in Hin.
    subst o. unfold Index.models. by rewrite Hthrow.
  - rewrite catch_all_sent in Hin. apply list_elem_of_singleton in Hin.
    subst o. unfold Index.catch_all. by rewrite Hthrow.
Qed.

Lemma sync_failure_message_witness :
  sentBody (reply (Index.app (Sample.hunyuan false) ChatCompletions
                     (Sample.failing Sample.bad_gateway) "u1"
                     (Sample.chat ∅)))
  = Some (server_error
            "Error forwarding request: AxiosError: Request failed with status code 502").
Proof.
  apply (sync_failure_message (Sample.hunyuan false) ChatCompletions
           (Sample.failing Sample.bad_gateway) "u1" (Sample.chat ∅)
           Sample.forwarded_chat Sample.bad_gateway).
  - apply list_elem_of_singleton. reflexivity.
  - reflexivity.
  - reflexivity.
Defined.

(** ** The error frame on the wire *)

Lemma line_feeds_app (a b : string) :
  line_feeds (a +:+ b) = (line_feeds a + line_feeds b)%nat.
Proof.
  induction a as [|c a IH]; [done|].
  change (line_feeds (String c (a +:+ b))
          = (line_feeds (String c a) + line_feeds b)%nat).
  simpl. rewrite IH. lia.
Qed.

Lemma line_feeds_quote_unit (c : ascii) :
  line_feeds (JsString.quote_unit c) = 0%nat.
Proof. destruct c as [[] [] [] [] [] [] [] []]; reflexivity. Qed.

Lemma line_feeds_stringify (s : string) :
  line_feeds (JsString.stringify s) = 0%nat.
Proof.
  unfold JsString.stringify. rewrite !line_feeds_app.
  assert (line_feeds (JsString.quote_units s) = 0%nat) as ->; [|done].
  induction s as [|c s IH]; [done|].
  change (line_feeds (JsString.quote_unit c +:+ JsString.quote_units s)
          = 0%nat).
  by rewrite line_feeds_app, line_feeds_quote_unit, IH.
Qed.

(** X18. Whatever the message, the error frame is one event: [data: ] followed
    by a payload without any line feed, then the two line feeds that close
    the frame. A message with line feeds in it cannot start a frame of its
    own. *)
Theorem error_frame_single_event (message : string) :
  ∃ payload,
    error_frame message
    = "data: " +:+ payload +:+ JsString.newline +:+ JsString.newline
    ∧ line_feeds payload = 0%nat
    ∧ line_feeds (error_frame message) = 2%nat.
Proof.
  eexists. split; [reflexivity|].
  assert (Hp : line_feeds
                 ("{" +:+ JsString.dquote +:+ "error" +:+ JsString.dquote
                  +:+ ":" +:+ "{" +:+ JsString.dquote +:+ "message"
                  +:+ JsString.dquote +:+ ":"
                  +:+ JsString.stringify message +:+ "}}") = 0%nat).
  { rewrite !line_feeds_app, line_feeds_stringify. reflexivity. }
  split; [exact Hp|].
  unfold error_frame. rewrite line_feeds_app.
  rewrite (line_feeds_app _ (JsString.newline +:+ JsString.newline)).
  rewrite Hp. reflexivity.
Qed.

(** ** The auth translator, continued *)

(** X1. The client prefix is optional in [index.js]: a header that does not
    start with it goes behind the upstream prefix whole, so a bare token
    and the same token behind the client prefix are translated alike. The
    result always starts with the upstream prefix. *)
Theorem processAuthHeader_prefix_optional (cfg : Index.config)
    (token : string) :
  JsString.startsWith token (Index.API_KEY_PREFIX cfg) = false →
  Index.processAuthHeader cfg (Some token)
  = Index.TARGET_API_KEY_PREFIX cfg +:+ token
  ∧ Index.processAuthHeader cfg (Some token)
    = Index.processAuthHeader cfg (Some (Index.API_KEY_PREFIX cfg +:+ token))
  ∧ (∀ h, JsString.startsWith (Index.processAuthHeader cfg h)
            (Index.TARGET_API_KEY_PREFIX cfg) = true).
Proof.
  intros Hno.
  assert (H1 : Index.processAuthHeader cfg (Some token)
               = Index.TARGET_API_KEY_PREFIX cfg +:+ token).
  { unfold Index.processAuthHeader. by rewrite or_empty_Some, Hno. }
  split; [exact H1|]. split.
  - rewrite H1. unfold Index.processAuthHeader.
    by rewrite or_empty_Some, startsWith_app, substring_app.
  - intros h. unfold Index.processAuthHeader. apply startsWith_app.
Qed.

Lemma processAuthHeader_prefix_optional_witness :
  Index.processAuthHeader (Sample.hunyuan false) (Some "ABC") = "Bearer up-ABC"
  ∧ Index.processAuthHeader (Sample.hunyuan false) (Some "ABC")
    = Index.processAuthHeader (Sample.hunyuan false) (Some "Bearer sk-ABC").
Proof.
  destruct (processAuthHeader_prefix_optional (Sample.hunyuan false) "ABC")
    as (H1 & H2 & _); [reflexivity|].
  split; [exact H1|exact H2].
Defined.

(** * The routes of [venus.js] *)

(** The headers of the request a route of [venus.js] issues. *)
Lemma venus_sent (cfg : Venus.config) (ep : endpoint) (up : upstream)
    (uuid : string) (req : request) (o : outbound) :
  o ∈ sent (Venus.app cfg ep up uuid req) →
  o_headers o
  = match ep with
    | ChatCompletions | Completions =>
        Venus.buildHeaders cfg
          (Some (or_empty (req_headers req !! "authorization")))
          "application/json"
    | Models =>
        delete "Content-Type"
          (Venus.buildHeaders cfg
             (Some (or_empty (req_headers req !! "authorization")))
             "application/json")
    | CatchAll =>
        delete "host"
          (match Venus.workspaceId cfg with
           | Some id =>
               if JsString.nonempty id
               then <[ "wsid" := id ]>
                      (<[ "authorization" :=
                            Venus.targetApiKeyPrefix cfg +:+ Venus.token cfg ]>
                         (req_headers req))
               else <[ "authorization" :=
                         Venus.targetApiKeyPrefix cfg +:+ Venus.token cfg ]>
                      (req_headers req)
           | None =>
               <[ "authorization" :=
                    Venus.targetApiKeyPrefix cfg +:+ Venus.token cfg ]>
                 (req_headers req)
           end)
    end.
Proof.
  destruct ep; simpl.
  - unfold Venus.chat_completions.
    destruct (Venus.normalize cfg uuid (body req)) as [n|e]; simpl.
    2:{ intros Hin. by apply elem_of_nil in Hin. }
    destruct (truthy_prop (n !! "stream")).
    + unfold handleStreaming.
      destruct (respond_stream up _) as [rsp|e];
        [destruct (negb (Axios.status rsp =? 200))|];
        simpl; intros ->%list_elem_of_singleton; done.
    + unfold handleNonStreaming.
      destruct (respond up _) as [rsp|e];
        simpl; intros ->%list_elem_of_singleton; done.
  - unfold Venus.completions.
    destruct (truthy_prop (body req !! "stream")).
    + unfold handleStreaming.
      destruct (respond_stream up _) as [rsp|e];
        [destruct (negb (Axios.status rsp =? 200))|];
        simpl; intros ->%list_elem_of_singleton; done.
    + unfold handleNonStreaming.
      destruct (respond up _) as [rsp|e];
        simpl; intros ->%list_elem_of_singleton; done.
  - unfold Venus.models.
    destruct (respond up _) as [rsp|e];
      simpl; intros ->%list_elem_of_singleton; done.
  - unfold Venus.catch_all.
    destruct (respond up _) as [rsp|e];
      simpl; intros ->%list_elem_of_singleton; simpl;
      destruct (Venus.workspaceId cfg) as [id|]; try done;
      destruct (JsString.nonempty id); done.
Qed.

(** The workspace id in force: the configured one unless missing or empty. *)
Lemma venus_buildHeaders_lookup (cfg : Venus.config) (a : option string)
    (ct k : string) :
  Venus.buildHeaders cfg a ct !! k
  = if decide (k = "Wsid") then
      match Venus.workspaceId cfg with
      | Some id => if JsString.nonempty id then Some id else None
      | None => None
      end
    else if decide (k = "Authorization")
      then Some (Venus.targetApiKeyPrefix cfg +:+ Venus.token cfg)
    else if decide (k = "Content-Type") then Some ct
    else None.
Proof.
  unfold Venus.buildHeaders, Venus.processAuthHeader.
  destruct (Venus.workspaceId cfg) as [id|]; [destruct (JsString.nonempty id)|];
    repeat case_decide; subst; simplify_map_eq; done.
Qed.

(** X19. In [venus.js] the inbound [Authorization] header has no effect at all:
    two requests that differ in that header only are forwarded alike and
    answered alike, on every route. *)
Theorem venus_ignores_authorization (cfg : Venus.config) (ep : endpoint)
    (up : upstream) (uuid : string) (m p : string)
    (h1 h2 q : gmap string string) (b : jobject) :
  delete "authorization" h1 = delete "authorization" h2 →
  Venus.app cfg ep up uuid
    {| method := m; path := p; req_headers := h1; query := q; body := b |}
  = Venus.app cfg ep up uuid
      {| method := m; path := p; req_headers := h2; query := q; body := b |}.
Proof.
  intros Hsame. destruct ep; [reflexivity|reflexivity|reflexivity|].
  simpl. unfold Venus.catch_all. cbn [req_headers method path query body].
  assert (Hins : ∀ v, <[ "authorization" := v ]> h1
                      = <[ "authorization" := v ]> h2).
  { intros v. by rewrite <- (insert_delete_eq h1), <- (insert_delete_eq h2), Hsame. }
  unfold Venus.processAuthHeader. cbv zeta.
  by rewrite Hins.
Qed.

Lemma venus_ignores_authorization_witness :
  Venus.app Sample.venus_workspace CatchAll Sample.creating "u1"
    {| method := "GET"; path := "/v1/files";
       req_headers := Sample.client_headers; query := ∅; body := ∅ |}
  = Venus.app Sample.venus_workspace CatchAll Sample.creating "u1"
      {| method := "GET"; path := "/v1/files";
         req_headers := Sample.other_client_headers; query := ∅; body := ∅ |}.
Proof.
  apply venus_ignores_authorization. vm_compute. reflexivity.
Defined.

(** X20. On every route of [venus.js] the headers sent upstream hold no [Host]
    header in any spelling, and every header named [Authorization] in any
    spelling holds the upstream prefix followed by the configured token. *)
Theorem venus_outbound_headers (cfg : Venus.config) (ep : endpoint)
    (up : upstream) (uuid : string) (req : request) (o : outbound) :
  lowercase_names (req_headers req) = true →
  o ∈ sent (Venus.app cfg ep up uuid req) →
  (∀ k, JsString.toLowerCase k = "host" → o_headers o !! k = None)
  ∧ (∀ k v, JsString.toLowerCase k = "authorization" →
       o_headers o !! k = Some v →
       v = Venus.targetApiKeyPrefix cfg +:+ Venus.token cfg).
Proof.
  intros Hlow Hin.
  apply bool_decide_eq_true_1 in Hlow.
  rewrite (venus_sent cfg ep up uuid req o Hin). clear Hin.
  assert (Hhost : ∀ k,
    JsString.toLowerCase k = "host" → k ≠ "Authorization" ∧ k ≠ "Wsid"
      ∧ k ≠ "Content-Type" ∧ k ≠ "wsid" ∧ k ≠ "authorization").
  { intros k Hk. repeat split; intros ->; discriminate Hk. }
  assert (Hauth : ∀ k,
    JsString.toLowerCase k = "authorization" →
    k ≠ "Wsid" ∧ k ≠ "Content-Type" ∧ k ≠ "wsid" ∧ k ≠ "host").
  { intros k Hk. repeat split; intros ->; discriminate Hk. }
  assert (Hcatch : ∀ hs : gmap string string,
    (hs = <[ "authorization" :=
               Venus.targetApiKeyPrefix cfg +:+ Venus.token cfg ]>
            (req_headers req)
     ∨ ∃ id, hs = <[ "wsid" := id ]>
                    (<[ "authorization" :=
                          Venus.targetApiKeyPrefix cfg +:+ Venus.token cfg ]>
                       (req_headers req))) →
    (∀ k, JsString.toLowerCase k = "host" → delete "host" hs !! k = None)
    ∧ (∀ k v, JsString.toLowerCase k = "authorization" →
         delete "host" hs !! k = Some v →
         v = Venus.targetApiKeyPrefix cfg +:+ Venus.token cfg)).
  { intros hs Hhs. split.
    - intros k Hk. destruct (decide (k = "host")) as [->|Hne].
      { apply lookup_delete_eq. }
      rewrite lookup_delete_ne by done.
      destruct (Hhost k Hk) as (_ & _ & _ & Hw & Ha).
      assert (Hreq : req_headers req !! k = None).
      { destruct (req_headers req !! k) as [v|] eqn:Hv; [|done].
        apply Hlow in Hv. simpl in Hv. congruence. }
      destruct Hhs as [->|[id ->]]; by rewrite !lookup_insert_ne.
    - intros k v Hk. destruct (Hauth k Hk) as (_ & _ & Hw & Hh).
      rewrite lookup_delete_ne by done.
      assert (Hins : <[ "authorization" :=
                          Venus.targetApiKeyPrefix cfg +:+ Venus.token cfg ]>
                       (req_headers req) !! k = Some v →
                     v = Venus.targetApiKeyPrefix cfg +:+ Venus.token cfg).
      { destruct (decide (k = "authorization")) as [->|Hna].
        - rewrite lookup_insert_eq. congruence.
        - rewrite lookup_insert_ne by done. intros Hv.
          apply Hlow in Hv. simpl in Hv. congruence. }
      destruct Hhs as [->|[id ->]]; [done|].
      by rewrite lookup_insert_ne. }
  destruct ep.
  1,2: split;
    [intros k Hk; destruct (Hhost k Hk) as (? & ? & ? & _);
     rewrite venus_buildHeaders_lookup; repeat case_decide; done
    |intros k v Hk; destruct (Hauth k Hk) as (? & ? & _);
     rewrite venus_buildHeaders_lookup; repeat case_decide; congruence].
  - split.
    + intros k Hk. destruct (Hhost k Hk) as (? & ? & ? & _).
      rewrite lookup_delete_ne by done.
      rewrite venus_buildHeaders_lookup. repeat case_decide; done.
    + intros k v Hk. destruct (Hauth k Hk) as (? & ? & _).
      rewrite lookup_delete_ne by done.
      rewrite venus_buildHeaders_lookup. repeat case_decide; congruence.
  - apply Hcatch.
    destruct (Venus.workspaceId cfg) as [id|]; [|by left].
    destruct (JsString.nonempty id); [right; by exists id|by left].
Qed.

Lemma venus_outbound_headers_witness :
  (∀ k, JsString.toLowerCase k = "host" →
        o_headers Sample.venus_forwarded_get_files !! k = None)
  ∧ (∀ k v, JsString.toLowerCase k = "authorization" →
       o_headers Sample.venus_forwarded_get_files !! k = Some v →
       v = Venus.targetApiKeyPrefix Sample.venus_workspace
           +:+ Venus.token Sample.venus_workspace).
Proof.
  apply (venus_outbound_headers Sample.venus_workspace CatchAll
           (Sample.failing Sample.reset) "u1" Sample.get_files
           Sample.venus_forwarded_get_files).
  - vm_compute. reflexivity.
  - apply list_elem_of_singleton. reflexivity.
Defined.

(** X21. The workspace header of [venus.js]: the specialized routes send [Wsid]
    exactly when a non-empty workspace id is configured; the catch-all
    route then sends it as [wsid], and otherwise passes on whatever [wsid]
    the client sent. *)
Theorem venus_workspace_header (cfg : Venus.config) (ep : endpoint)
    (up : upstream) (uuid : string) (req : request) (o : outbound) :
  o ∈ sent (Venus.app cfg ep up uuid req) →
  let configured :=
    match Venus.workspaceId cfg with
    | Some id => if JsString.nonempty id then Some id else None
    | None => None
    end in
  match ep with
  | CatchAll =>
      o_headers o !! "wsid"
      = match configured with
        | Some id => Some id
        | None => req_headers req !! "wsid"
        end
  | _ => o_headers o !! "Wsid" = configured
  end.
Proof.
  intros Hin. rewrite (venus_sent cfg ep up uuid req o Hin). clear Hin.
  cbv zeta. destruct ep.
  1,2: by rewrite venus_buildHeaders_lookup.
  - rewrite lookup_delete_ne by done. by rewrite venus_buildHeaders_lookup.
  - rewrite lookup_delete_ne by done.
    destruct (Venus.workspaceId cfg) as [id|];
      [destruct (JsString.nonempty id)|].
    + apply lookup_insert_eq.
    + by rewrite lookup_insert_ne.
    + by rewrite lookup_insert_ne.
Qed.

Lemma venus_workspace_header_witness :
  o_headers Sample.venus_forwarded_get_files !! "wsid" = Some "ws-9".
Proof.
  apply (venus_workspace_header Sample.venus_workspace CatchAll
           (Sample.failing Sample.reset) "u1" Sample.get_files
           Sample.venus_forwarded_get_files).
  apply list_elem_of_singleton. reflexivity.
Defined.

(** * The headers of the specialized routes *)

Lemma buildHeaders_keys (cfg : Index.config) (a : option string)
    (ct k : string) :
  is_Some (Index.buildHeaders cfg a ct !! k)
  ↔ k = "Authorization" ∨ k = "Wsid" ∨ k = "Content-Type".
Proof.
  rewrite buildHeaders_lookup.
  destruct (decide (k = "Authorization")) as [->|Ha]; [split; eauto|].
  destruct (decide (k = "Wsid")) as [->|Hw]; [split; eauto|].
  destruct (decide (k = "Content-Type")) as [->|Hc]; [split; eauto|].
  split; [intros [v Hv]; discriminate Hv|].
  intros [?|[?|?]]; congruence.
Qed.

(** X22. The specialized routes of [index.js] send a fixed set of headers and
    nothing else of what the client sent: [Authorization], [Wsid] and, on
    the two POST routes, a JSON [Content-Type]. *)
Theorem specialized_headers_fixed (cfg : Index.config) (ep : endpoint)
    (up : upstream) (uuid : string) (req : request) (o : outbound) :
  ep ≠ CatchAll →
  o ∈ sent (Index.app cfg ep up uuid req) →
  (∀ k, is_Some (o_headers o !! k)
        ↔ k = "Authorization" ∨ k = "Wsid"
          ∨ (k = "Content-Type" ∧ ep ≠ Models))
  ∧ o_headers o !! "Wsid" = Some (Index.WORKSPACE_ID cfg)
  ∧ (ep ≠ Models → o_headers o !! "Content-Type" = Some "application/json").
Proof.
  intros Hep Hin.
  destruct (app_sent cfg ep up uuid req o Hin) as [Hh _]. rewrite Hh.
  clear Hh Hin. destruct ep; [| | |done].
  1,2: split; [|split; [by rewrite buildHeaders_lookup
                       |intros _; by rewrite buildHeaders_lookup]];
    intros k; rewrite buildHeaders_keys;
    (split; [intros [?|[?|?]]|intros [?|[?|[? _]]]]); auto.
  split; [|split; [|done]].
  - intros k. destruct (decide (k = "Content-Type")) as [->|Hct].
    + rewrite lookup_delete_eq.
      split; [intros [v Hv]; discriminate Hv|].
      intros [?|[?|[_ ?]]]; done.
    + rewrite lookup_delete_ne by done. rewrite buildHeaders_keys.
      split; [intros [?|[?|?]]|intros [?|[?|[? _]]]]; auto. done.
  - rewrite lookup_delete_ne by done. by rewrite buildHeaders_lookup.
Qed.

Lemma specialized_headers_fixed_witness :
  (∀ k, is_Some (o_headers Sample.forwarded_chat !! k)
        ↔ k = "Authorization" ∨ k = "Wsid"
          ∨ (k = "Content-Type" ∧ ChatCompletions ≠ Models))
  ∧ o_headers Sample.forwarded_chat !! "Wsid"
    = Some (Index.WORKSPACE_ID (Sample.hunyuan false))
  ∧ (ChatCompletions ≠ Models →
     o_headers Sample.forwarded_chat !! "Content-Type"
     = Some "application/json").
Proof.
  apply (specialized_headers_fixed (Sample.hunyuan false) ChatCompletions
           Sample.creating "u1" (Sample.chat ∅) Sample.forwarded_chat).
  - done.
  - apply list_elem_of_singleton. reflexivity.
Defined.

(** A [GET] through the catch-all route keeps the client's [accept] header
    and carries the configured workspace id. *)
Lemma catch_all_preserves_headers_witness :
  o_headers Sample.forwarded_get_files !! "accept"
  = req_headers Sample.get_files !! "accept"
  ∧ o_headers Sample.forwarded_get_files !! "wsid"
    = Some (Index.WORKSPACE_ID (Sample.hunyuan false)).
Proof.
  destruct (catch_all_preserves_headers (Sample.hunyuan false)
              (Sample.failing Sample.reset) "u1" Sample.get_files)
    as (o & Hs & Hk & Hw).
  assert (Hc : sent (Index.app (Sample.hunyuan false) CatchAll
                       (Sample.failing Sample.reset) "u1" Sample.get_files)
               = [Sample.forwarded_get_files]) by reflexivity.
  rewrite Hc in Hs. injection Hs as <-.
  split; [by apply Hk|exact Hw].
Defined.

(** The path [/v1/files] goes to the base URL followed by [/v1/files]. *)
Lemma catch_all_target_witness :
  o_method Sample.forwarded_get_files = "GET"
  ∧ o_url Sample.forwarded_get_files
    = Index.TARGET_API_BASE_URL (Sample.hunyuan false)
      +:+ path Sample.get_files.
Proof.
  destruct (catch_all_target (Sample.hunyuan false)
              (Sample.failing Sample.reset) "u1" Sample.get_files)
    as (o & Hs & Hm & _ & Hu & _).
  assert (Hc : sent (Index.app (Sample.hunyuan false) CatchAll
                       (Sample.failing Sample.reset) "u1" Sample.get_files)
               = [Sample.forwarded_get_files]) by reflexivity.
  rewrite Hc in Hs. injection Hs as <-.
  split; [exact Hm|by apply (Hu "v1/files")].
Defined.
